(** * web_scrapper: a shallow embedding of [src/web_scrapper/scraper.py]

    The module has two functions.  [scrape_page] drives a Playwright
    browser through a fixed sequence of calls inside
    [try: with sync_playwright() as p: ...] and maps every exception to
    a string stored in the returned dictionary.  The second one,
    [scrape_statistics_canada_daily], calls it on a fixed URL and
    optionally dumps three fields of the dictionary as JSON.

    Python values are modelled as follows.
    - [str] is a [string]: the bytes of the text in UTF-8, a lone
      surrogate being written like any other code point of the basic
      plane (three bytes, the first one 0xED), so that every [str] has a
      value.  UTF-8 proper has no such bytes: encoding a text that holds
      them raises [UnicodeEncodeError].
    - [int] is [Z].
    - [Optional[str]] and [Optional[Path]] are [option].
    - the result dictionary, whose six keys are fixed at creation and
      only ever assigned, is the record [ScrapeResult].
    - an exception is a value of [Exc]; a Python call that may raise
      returns an [outcome].
    - Playwright and the operating system are outside the module: each of
      their calls is answered by an environment [Env], and every call the
      module makes is appended to a trace. *)

From Stdlib Require Import ZArith String Ascii List Bool Lia.
From stdpp Require Import gmap strings list fin_maps.

Local Open Scope string_scope.
Local Open Scope Z_scope.
Local Open Scope list_scope.

(* ===================================================================== *)
(** ** Exceptions and outcomes *)
(* ===================================================================== *)

(** The two [except] clauses of [scrape_page] distinguish
    [playwright.sync_api.TimeoutError] from every other subclass of
    [Exception]; nothing else is observed about the class of an
    exception.  [exc_str] is what [str(e)] returns for an exception of
    Playwright, the only text the module reads.  For an exception of the
    operating system or of an encoder, which the module never catches,
    [exc_str] names the reason only (no error number, file name or
    position).  What Playwright and the operating system raise are
    subclasses of [Exception]; a [KeyboardInterrupt] or a [SystemExit] is
    not a failure of theirs and is not modelled. *)
Inductive ExcClass : Type :=
| PlaywrightTimeoutError
| OtherException.

Record Exc : Type := mkExc { exc_class : ExcClass; exc_str : string }.

Inductive outcome (A : Type) : Type :=
| Ok (a : A)
| Raise (e : Exc).
Arguments Ok {A} a.
Arguments Raise {A} e.

(** A statement that runs in a state [S] and either returns or raises. *)
Definition M (S A : Type) : Type := S -> outcome A * S.

Definition ret {S A} (a : A) : M S A := fun s => (Ok a, s).

Definition raise {S A} (e : Exc) : M S A := fun s => (Raise e, s).

Definition bind {S A B} (m : M S A) (k : A -> M S B) : M S B :=
  fun s =>
    match m s with
    | (Ok a, s') => k a s'
    | (Raise e, s') => (Raise e, s')
    end.

Definition modify {S} (f : S -> S) : M S unit := fun s => (Ok tt, f s).

Declare Scope py_scope.
Delimit Scope py_scope with py.
Notation "x <- m ;; k" := (bind m (fun x => k))
  (at level 100, m at next level, right associativity) : py_scope.
Notation "m ;; k" := (bind m (fun _ => k))
  (at level 100, right associativity) : py_scope.

(** [with cm: body], for a context manager whose [__exit__] returns
    [None] (it never swallows the exception of the body).  [__exit__] is
    not called when [__enter__] raises; otherwise it is called exactly
    once, and an exception of its own replaces the one in flight. *)
Definition with_ {S A} (enter : M S unit) (exit_ : M S unit) (body : M S A)
  : M S A :=
  fun s =>
    match enter s with
    | (Raise e, s1) => (Raise e, s1)
    | (Ok _, s1) =>
        match body s1 with
        | (Ok a, s2) =>
            match exit_ s2 with
            | (Ok _, s3) => (Ok a, s3)
            | (Raise e', s3) => (Raise e', s3)
            end
        | (Raise e, s2) =>
            match exit_ s2 with
            | (Ok _, s3) => (Raise e, s3)
            | (Raise e', s3) => (Raise e', s3)
            end
        end
    end.

(** [try: body / except PlaywrightTimeoutError as e: h1 / except Exception
    as e: h2].  The clauses are tried in order, so a timeout never reaches
    the second one. *)
Definition try_except {S} (body : M S unit)
    (on_timeout : Exc -> M S unit) (on_exception : Exc -> M S unit)
  : M S unit :=
  fun s =>
    match body s with
    | (Ok u, s') => (Ok u, s')
    | (Raise e, s') =>
        match exc_class e with
        | PlaywrightTimeoutError => on_timeout e s'
        | OtherException => on_exception e s'
        end
    end.

(* ===================================================================== *)
(** ** The result dictionary *)
(* ===================================================================== *)

Record ScrapeResult : Type := mkResult {
  success : bool;
  url : string;
  title : string;
  content : string;
  html : string;
  error : string
}.

Definition set_success (b : bool) (r : ScrapeResult) : ScrapeResult :=
  mkResult b (url r) (title r) (content r) (html r) (error r).
Definition set_title (v : string) (r : ScrapeResult) : ScrapeResult :=
  mkResult (success r) (url r) v (content r) (html r) (error r).
Definition set_content (v : string) (r : ScrapeResult) : ScrapeResult :=
  mkResult (success r) (url r) (title r) v (html r) (error r).
Definition set_html (v : string) (r : ScrapeResult) : ScrapeResult :=
  mkResult (success r) (url r) (title r) (content r) v (error r).
Definition set_error (v : string) (r : ScrapeResult) : ScrapeResult :=
  mkResult (success r) (url r) (title r) (content r) (html r) v.

(* ===================================================================== *)
(** ** The outside world *)
(* ===================================================================== *)

(** A path is the list of its components below the working directory;
    the empty list is the working directory itself.  The file system
    modelled has no links and compares names exactly, so that two lists of
    names are two places.  [pathlib] keeps a component [..] as it is and
    the operating system resolves it; the model gives it no meaning, and
    what is said of the content of the file system is said of paths
    without it (see [plain]). *)
Abbreviation Path := (list string).

(** Calls into Playwright, in the order [scrape_page] can make them. *)
Inductive Event : Type :=
| EvEnter                                   (* sync_playwright().__enter__ *)
| EvLaunch (headless : bool)                (* p.chromium.launch *)
| EvNewPage                                 (* browser.new_page *)
| EvGoto (u : string) (timeout : Z) (wait_until : string)
| EvWaitForSelector (selector : string) (timeout : Z)
| EvTitle                                   (* page.title *)
| EvInnerText (selector : string)           (* page.inner_text *)
| EvContent                                 (* page.content *)
| EvClose                                   (* browser.close *)
| EvExit.                                   (* sync_playwright().__exit__ *)

(** What Playwright answers.  Every call may raise.  The handles returned
    by [launch] and [new_page] are only ever passed back to Playwright, so
    they carry no information here. *)
Record Playwright : Type := mkPlaywright {
  pw_enter : outcome unit;
  pw_launch : bool -> outcome unit;
  pw_new_page : outcome unit;
  pw_goto : string -> Z -> string -> outcome unit;
  pw_wait_for_selector : string -> Z -> outcome unit;
  pw_title : outcome string;
  pw_inner_text : string -> outcome string;
  pw_content : outcome string;
  pw_close : outcome unit;
  pw_exit : outcome unit
}.

(** Lines printed by [scrape_statistics_canada_daily]: lines 88, 95, 96,
    113 and 115.  All but the first begin with a check mark or a cross,
    which not every encoding of the standard output has. *)
Inductive Line : Type :=
| LineScraping (u : string)
| LineScraped (t : string)
| LineContentLength (n : nat)
| LineSaved (p : Path)
| LineError (msg : string).

(** Operations on files, the standard output among them, that the
    environment may refuse for reasons of its own: permissions, a full
    disk, a standard output that cannot encode the line. *)
Inductive FsOp : Type :=
| OpMkdir (p : Path)
| OpOpen (p : Path)
| OpWrite (p : Path)
| OpPrint (l : Line).

Record Env : Type := mkEnv {
  env_pw : Playwright;
  env_fs_fault : FsOp -> option Exc
}.

(** What a path holds: a directory, a file with its content, or a file
    left behind by a write that failed, which holds a part of the text
    that was being written: some prefix of it, which one is not known. *)
Inductive node : Type :=
| Dir
| File (data : string)
| Partial (text : string).

Record World : Type := mkWorld {
  w_trace : list Event;
  w_fs : gmap Path node;
  w_stdout : list Line
}.

Definition log_event (ev : Event) (w : World) : World :=
  mkWorld (w_trace w ++ [ev]) (w_fs w) (w_stdout w).

Definition set_fs (fs : gmap Path node) (w : World) : World :=
  mkWorld (w_trace w) fs (w_stdout w).

(** [print(line)]: when the standard output refuses the line, nothing of
    it is printed and the exception is raised. *)
Definition print (fault_of : FsOp -> option Exc) (l : Line) : M World unit :=
  fun w =>
    match fault_of (OpPrint l) with
    | Some e => (Raise e, w)
    | None => (Ok tt, mkWorld (w_trace w) (w_fs w) (w_stdout w ++ [l]))
    end.

(* ===================================================================== *)
(** ** scrape_page *)
(* ===================================================================== *)

(** The local variables of [scrape_page] that outlive the [try] block,
    together with the world. *)
Record Locals : Type := mkLocals {
  l_result : ScrapeResult;
  l_world : World
}.

Definition assign (f : ScrapeResult -> ScrapeResult) : M Locals unit :=
  modify (fun l => mkLocals (f (l_result l)) (l_world l)).

(** One call into Playwright: it is recorded, then answered. *)
Definition invoke {A} (ev : Event) (answer : outcome A) : M Locals A :=
  fun l => (answer, mkLocals (l_result l) (log_event ev (l_world l))).

(** Truth value of an [Optional[str]]: [None] and [""] are false. *)
Definition truthy (o : option string) : bool :=
  match o with
  | None => false
  | Some "" => false
  | Some _ => true
  end.

Definition selector_of (o : option string) : string :=
  match o with Some s => s | None => "" end.

Section ScrapePage.

Variable pw : Playwright.

Local Open Scope py_scope.

(** Lines 49-66: the body of the [with] block. *)
Definition scrape_page_body (url_ : string) (headless : bool) (timeout : Z)
    (wait_for_selector : option string) : M Locals unit :=
  invoke (EvLaunch headless) (pw_launch pw headless) ;;
  invoke EvNewPage (pw_new_page pw) ;;
  invoke (EvGoto url_ timeout "networkidle")
         (pw_goto pw url_ timeout "networkidle") ;;
  (if truthy wait_for_selector
   then invoke (EvWaitForSelector (selector_of wait_for_selector) timeout)
               (pw_wait_for_selector pw (selector_of wait_for_selector) timeout)
   else ret tt) ;;
  t <- invoke EvTitle (pw_title pw) ;;
  assign (set_title t) ;;
  c <- invoke (EvInnerText "body") (pw_inner_text pw "body") ;;
  assign (set_content c) ;;
  h <- invoke EvContent (pw_content pw) ;;
  assign (set_html h) ;;
  assign (set_success true) ;;
  invoke EvClose (pw_close pw).

(** Lines 47-66: [with sync_playwright() as p: ...]. *)
Definition scrape_page_with (url_ : string) (headless : bool) (timeout : Z)
    (wait_for_selector : option string) : M Locals unit :=
  with_ (invoke EvEnter (pw_enter pw))
        (invoke EvExit (pw_exit pw))
        (scrape_page_body url_ headless timeout wait_for_selector).

(** Lines 46-71: the [try] statement. *)
Definition scrape_page_try (url_ : string) (headless : bool) (timeout : Z)
    (wait_for_selector : option string) : M Locals unit :=
  try_except (scrape_page_with url_ headless timeout wait_for_selector)
    (fun e => assign (set_error ("Timeout error: " +:+ exc_str e)))
    (fun e => assign (set_error ("Error scraping page: " +:+ exc_str e))).

(** Lines 37-73. *)
Definition scrape_page (url_ : string) (headless : bool) (timeout : Z)
    (wait_for_selector : option string) : M World ScrapeResult :=
  fun w =>
    let result := mkResult false url_ "" "" "" "" in
    match scrape_page_try url_ headless timeout wait_for_selector
                          (mkLocals result w) with
    | (Ok _, l) => (Ok (l_result l), l_world l)
    | (Raise e, l) => (Raise e, l_world l)
    end.

End ScrapePage.

(** Default arguments of [scrape_page]. *)
Definition default_headless : bool := true.
Definition default_timeout : Z := 30000.

(* ===================================================================== *)
(** ** json.dump(save_data, f, indent=2, ensure_ascii=False) *)
(* ===================================================================== *)

Module Json.

Definition nl : string := String "010"%char "".

Definition hex_digit (n : nat) : ascii :=
  match n with
  | 0%nat => "0" | 1%nat => "1" | 2%nat => "2" | 3%nat => "3"
  | 4%nat => "4" | 5%nat => "5" | 6%nat => "6" | 7%nat => "7"
  | 8%nat => "8" | 9%nat => "9" | 10%nat => "a" | 11%nat => "b"
  | 12%nat => "c" | 13%nat => "d" | 14%nat => "e" | _ => "f"
  end%char.

Definition dquote : ascii := "034"%char.
Definition bslash : ascii := "092"%char.

(** [ESCAPE_DCT] of [json.encoder]: the quote, the backslash and the
    bytes below 0x20 are escaped; with [ensure_ascii=False] every other
    character, the bytes of a non-ASCII one included, is copied. *)
Definition escape_char (c : ascii) : string :=
  let n := nat_of_ascii c in
  if (n =? 34)%nat then String bslash (String dquote "")
  else if (n =? 92)%nat then String bslash (String bslash "")
  else if (n =? 8)%nat then String bslash "b"
  else if (n =? 12)%nat then String bslash "f"
  else if (n =? 10)%nat then String bslash "n"
  else if (n =? 13)%nat then String bslash "r"
  else if (n =? 9)%nat then String bslash "t"
  else if (n <? 32)%nat
       then String bslash "u00"
            +:+ String (hex_digit (n / 16)) (String (hex_digit (n mod 16)) "")
  else String c "".

Fixpoint escape (s : string) : string :=
  match s with
  | EmptyString => ""
  | String c rest => escape_char c +:+ escape rest
  end.

(** [encode_basestring]. *)
Definition json_string (s : string) : string :=
  String dquote (escape s) +:+ String dquote "".

Definition json_item (kv : string * string) : string :=
  json_string (fst kv) +:+ ": " +:+ json_string (snd kv).

Fixpoint json_items (sep : string) (d : list (string * string)) : string :=
  match d with
  | [] => ""
  | [kv] => json_item kv
  | kv :: rest => json_item kv +:+ sep +:+ json_items sep rest
  end.

(** The item separator at nesting level 0 with [indent=2]. *)
Definition item_sep : string := "," +:+ nl +:+ "  ".

(** A [dict] with string values, its keys in insertion order, at nesting
    level 0 with [indent=2]: every item on a line of its own, behind two
    spaces; the item separator is a comma, the key separator [": "]. *)
Definition dumps_indent2 (d : list (string * string)) : string :=
  match d with
  | [] => "{}"
  | _ => "{" +:+ nl +:+ "  " +:+ json_items item_sep d +:+ nl +:+ "}"
  end.

End Json.

(* ===================================================================== *)
(** ** json.loads, for reading the file back *)
(* ===================================================================== *)

Module JsonRead.

Import Json.

Definition is_ws (c : ascii) : bool :=
  let n := nat_of_ascii c in
  ((n =? 32) || (n =? 9) || (n =? 10) || (n =? 13))%nat.

Fixpoint skip_ws (s : string) : string :=
  match s with
  | String c rest => if is_ws c then skip_ws rest else s
  | EmptyString => s
  end.

Definition hex_value (c : ascii) : option N :=
  let n := N_of_ascii c in
  if ((48 <=? n) && (n <=? 57))%N then Some (n - 48)%N
  else if ((97 <=? n) && (n <=? 102))%N then Some (n - 87)%N
  else if ((65 <=? n) && (n <=? 70))%N then Some (n - 55)%N
  else None.

Definition hex4 (a b c d : ascii) : option N :=
  match hex_value a, hex_value b, hex_value c, hex_value d with
  | Some x, Some y, Some z, Some t =>
      Some (((x * 16 + y) * 16 + z) * 16 + t)%N
  | _, _, _, _ => None
  end.

(** The UTF-8 bytes of a code point of the basic plane.  A surrogate has
    none (the decoder below does not join surrogate pairs). *)
Definition utf8 (n : N) : option string :=
  if (n <? 128)%N then Some (String (ascii_of_N n) "")
  else if (n <? 2048)%N then
    Some (String (ascii_of_N (192 + n / 64))
         (String (ascii_of_N (128 + n mod 64)) ""))
  else if ((55296 <=? n) && (n <? 57344))%N then None
  else
    Some (String (ascii_of_N (224 + n / 4096))
         (String (ascii_of_N (128 + (n / 64) mod 64))
         (String (ascii_of_N (128 + n mod 64)) ""))).

Definition unescape_simple (c : ascii) : option ascii :=
  let n := nat_of_ascii c in
  if (n =? 34)%nat then Some dquote
  else if (n =? 92)%nat then Some bslash
  else if (n =? 47)%nat then Some "/"%char
  else if (n =? 98)%nat then Some "008"%char
  else if (n =? 102)%nat then Some "012"%char
  else if (n =? 110)%nat then Some "010"%char
  else if (n =? 114)%nat then Some "013"%char
  else if (n =? 116)%nat then Some "009"%char
  else None.

(** The characters of a string literal after its opening quote, up to the
    closing one: the decoded text and what follows the literal.  A raw
    byte below 0x20 is refused, as [json.loads] does by default. *)
Fixpoint read_string_body (s : string) : option (string * string) :=
  match s with
  | EmptyString => None
  | String c rest =>
      if (nat_of_ascii c =? 34)%nat then Some ("", rest)
      else if (nat_of_ascii c =? 92)%nat then
        match rest with
        | EmptyString => None
        | String e rest' =>
            if (nat_of_ascii e =? 117)%nat then
              match rest' with
              | String h1 (String h2 (String h3 (String h4 rest''))) =>
                  match hex4 h1 h2 h3 h4 with
                  | Some n =>
                      match utf8 n, read_string_body rest'' with
                      | Some bytes, Some (txt, after) =>
                          Some (bytes +:+ txt, after)
                      | _, _ => None
                      end
                  | None => None
                  end
              | _ => None
              end
            else
              match unescape_simple e, read_string_body rest' with
              | Some c', Some (txt, after) => Some (String c' txt, after)
              | _, _ => None
              end
        end
      else if (nat_of_ascii c <? 32)%nat then None
      else
        match read_string_body rest with
        | Some (txt, after) => Some (String c txt, after)
        | None => None
        end
  end.

Definition read_string (s : string) : option (string * string) :=
  match s with
  | String c rest =>
      if (nat_of_ascii c =? 34)%nat then read_string_body rest else None
  | EmptyString => None
  end.

Definition expect (c : ascii) (s : string) : option string :=
  match s with
  | String c' rest => if (nat_of_ascii c' =? nat_of_ascii c)%nat
                      then Some rest else None
  | EmptyString => None
  end.

(** The members of an object after its opening brace, the first one
    expected at the head of [s]; [fuel] bounds their number. *)
Fixpoint read_members (fuel : nat) (s : string)
  : option (list (string * string) * string) :=
  match fuel with
  | O => None
  | S fuel' =>
      match read_string s with
      | None => None
      | Some (k, s1) =>
          match expect ":" (skip_ws s1) with
          | None => None
          | Some s2 =>
              match read_string (skip_ws s2) with
              | None => None
              | Some (v, s3) =>
                  match skip_ws s3 with
                  | String c s4 =>
                      if (nat_of_ascii c =? 125)%nat then Some ([(k, v)], s4)
                      else if (nat_of_ascii c =? 44)%nat then
                        match read_members fuel' (skip_ws s4) with
                        | Some (d, s5) => Some ((k, v) :: d, s5)
                        | None => None
                        end
                      else None
                  | EmptyString => None
                  end
              end
          end
      end
  end.

(** [json.loads] on a document that is an object whose values are all
    strings; [None] for anything else. *)
Definition loads (s : string) : option (list (string * string)) :=
  match expect "{" (skip_ws s) with
  | None => None
  | Some s1 =>
      match skip_ws s1 with
      | String c s2 =>
          if (nat_of_ascii c =? 125)%nat then
            match skip_ws s2 with EmptyString => Some [] | _ => None end
          else
            match read_members (String.length s) (skip_ws s1) with
            | Some (d, s3) =>
                match skip_ws s3 with EmptyString => Some d | _ => None end
            | None => None
            end
      | EmptyString => None
      end
  end.

End JsonRead.

(* ===================================================================== *)
(** ** The file system *)
(* ===================================================================== *)

Module Fs.

(** The first four are subclasses of [OSError], the last one of
    [ValueError]. *)
Definition FileExistsError : Exc := mkExc OtherException "File exists".
Definition FileNotFoundError : Exc :=
  mkExc OtherException "No such file or directory".
Definition IsADirectoryError : Exc := mkExc OtherException "Is a directory".
Definition NotADirectoryError : Exc := mkExc OtherException "Not a directory".
Definition UnicodeEncodeError : Exc :=
  mkExc OtherException "surrogates not allowed".

Definition parent (p : Path) : Path := removelast p.

Definition is_dir (fs : gmap Path node) (p : Path) : bool :=
  match p with
  | [] => true
  | _ => match fs !! p with Some Dir => true | _ => false end
  end.

(** The first of the three bytes of a surrogate is 0xED, the second one
    lies between 0xA0 and 0xBF. *)
Definition surrogate_bytes (a b : ascii) : bool :=
  ((nat_of_ascii a =? 237) && (160 <=? nat_of_ascii b)
   && (nat_of_ascii b <=? 191))%nat.

(** The text holds a surrogate: the UTF-8 encoder refuses it. *)
Fixpoint has_surrogate (s : string) : bool :=
  match s with
  | String a rest =>
      match rest with
      | String b _ => surrogate_bytes a b || has_surrogate rest
      | EmptyString => false
      end
  | EmptyString => false
  end.

Definition fault (fault_of : FsOp -> option Exc) (op : FsOp)
  : M (gmap Path node) unit :=
  match fault_of op with
  | Some e => raise e
  | None => ret tt
  end.

Section WithFaults.

Variable fault_of : FsOp -> option Exc.

Local Open Scope py_scope.

(** [Path.mkdir(parents=True, exist_ok=True)], on the path whose
    components are [rev rp].  A directory that exists is left alone; a
    file in its place is an error, [blocked]; a missing one is created
    after its parent.  A file in the place of an ancestor of a missing
    directory is [NotADirectoryError]. *)
Fixpoint mkdir_rev (blocked : Exc) (rp : list string)
  : M (gmap Path node) unit :=
  match rp with
  | [] => ret tt
  | _ :: rparent =>
      fun fs =>
        match fs !! rev rp with
        | Some Dir => (Ok tt, fs)
        | Some _ => (Raise blocked, fs)
        | None =>
            (mkdir_rev NotADirectoryError rparent ;;
             fault fault_of (OpMkdir (rev rp)) ;;
             modify (fun fs' => <[rev rp := Dir]> fs')) fs
        end
  end.

Definition mkdir_parents (p : Path) : M (gmap Path node) unit :=
  mkdir_rev FileExistsError (rev p).

(** [open(p, "w", encoding="utf-8")]: the file is created, or emptied if
    it exists. *)
Definition open_w (p : Path) : M (gmap Path node) unit :=
  fun fs =>
    if is_dir fs p then (Raise IsADirectoryError, fs)
    else if is_dir fs (parent p) then
      (fault fault_of (OpOpen p) ;;
       modify (fun fs' => <[p := File ""]> fs')) fs
    else
      match fs !! parent p with
      | Some _ => (Raise NotADirectoryError, fs)
      | None => (Raise FileNotFoundError, fs)
      end.

(** Everything written to the open file up to its [close].  The encoder
    of the file is UTF-8 (line 110) and refuses a surrogate; the operating
    system may refuse the write.  The text goes through buffers, so that a
    part of it may have reached the file when the write fails.  A line
    feed is written as it is (no translation of newlines). *)
Definition write (p : Path) (data : string) : M (gmap Path node) unit :=
  fun fs =>
    if has_surrogate data
    then (Raise UnicodeEncodeError, <[p := Partial data]> fs)
    else
      match fault_of (OpWrite p) with
      | Some e => (Raise e, <[p := Partial data]> fs)
      | None => (Ok tt, <[p := File data]> fs)
      end.

End WithFaults.

End Fs.

(** A statement on the file system, run in the world. *)
Definition on_fs {A} (m : M (gmap Path node) A) : M World A :=
  fun w =>
    match m (w_fs w) with
    | (o, fs') => (o, set_fs fs' w)
    end.

(* ===================================================================== *)
(** ** scrape_statistics_canada_daily *)
(* ===================================================================== *)

(** [len] of a [str]: its code points, the bytes that are not UTF-8
    continuation bytes. *)
Definition is_continuation (c : ascii) : bool :=
  match c with
  | Ascii _ _ _ _ _ _ b6 b7 => b7 && negb b6
  end.

Fixpoint py_len (s : string) : nat :=
  match s with
  | EmptyString => O
  | String c rest => if is_continuation c then py_len rest else S (py_len rest)
  end.

Definition statcan_url : string :=
  "https://www150.statcan.gc.ca/n1/daily-quotidien/260216/dq260216a-eng.htm".

Section SampleRunner.

Variable env : Env.

Local Open Scope py_scope.

(** Lines 76-117.  [output_file] is an [Optional[Path]]; a [Path] object
    is always true, and [Path(output_file)] is that same path.  The three
    items of [save_data] are in the order in which the dictionary is
    built.  Every [print] may raise, and nothing catches it. *)
Definition scrape_statistics_canada_daily (output_file : option Path)
  : M World ScrapeResult :=
  let url_ := statcan_url in
  print (env_fs_fault env) (LineScraping url_) ;;
  result <- scrape_page (env_pw env) url_ default_headless default_timeout
                        (Some "main") ;;
  (if success result then
     print (env_fs_fault env) (LineScraped (title result)) ;;
     print (env_fs_fault env) (LineContentLength (py_len (content result))) ;;
     match output_file with
     | Some output_file =>
         on_fs (Fs.mkdir_parents (env_fs_fault env) (Fs.parent output_file)) ;;
         let save_data := [("url", url result);
                           ("title", title result);
                           ("content", content result)] in
         with_ (on_fs (Fs.open_w (env_fs_fault env) output_file))
               (ret tt)
               (on_fs (Fs.write (env_fs_fault env) output_file
                                (Json.dumps_indent2 save_data))) ;;
         print (env_fs_fault env) (LineSaved output_file)
     | None => ret tt
     end
   else
     print (env_fs_fault env) (LineError (error result))) ;;
  ret result.

(** Lines 120-123. *)
Definition main : M World ScrapeResult :=
  scrape_statistics_canada_daily (Some ["output"; "statcan_daily.json"]).

End SampleRunner.

(* ===================================================================== *)
(** ** The invariant of the specification, and sample environments *)
(* ===================================================================== *)

(** The invariant of the data model as the specification words it:
    [success] with an empty [error], or no [success] with a non-empty
    [error] and the three text fields empty.  (That the text fields are
    populated on success is read as no constraint on a record taken
    alone.) *)
Definition spec_invariant (r : ScrapeResult) : Prop :=
  (success r = true /\ error r = "") \/
  (success r = false /\ error r <> "" /\
   title r = "" /\ content r = "" /\ html r = "").

(** A page that loads and answers every call. *)
Definition pw_fine : Playwright :=
  mkPlaywright (Ok tt) (fun _ => Ok tt) (Ok tt) (fun _ _ _ => Ok tt)
    (fun _ _ => Ok tt) (Ok "The Daily") (fun _ => Ok "Body text")
    (Ok "<html></html>") (Ok tt) (Ok tt).

(** Navigation runs into the timeout. *)
Definition pw_goto_timeout : Playwright :=
  mkPlaywright (Ok tt) (fun _ => Ok tt) (Ok tt)
    (fun _ _ _ => Raise (mkExc PlaywrightTimeoutError "Timeout 30000ms exceeded."))
    (fun _ _ => Ok tt) (Ok "The Daily") (fun _ => Ok "Body text")
    (Ok "<html></html>") (Ok tt) (Ok tt).

(** The page loads and its title is read, then the page goes away. *)
Definition pw_inner_text_fails : Playwright :=
  mkPlaywright (Ok tt) (fun _ => Ok tt) (Ok tt) (fun _ _ _ => Ok tt)
    (fun _ _ => Ok tt) (Ok "The Daily")
    (fun _ => Raise (mkExc OtherException "Target closed"))
    (Ok "<html></html>") (Ok tt) (Ok tt).

(** Title and text are read, then serialising the document times out. *)
Definition pw_content_fails : Playwright :=
  mkPlaywright (Ok tt) (fun _ => Ok tt) (Ok tt) (fun _ _ _ => Ok tt)
    (fun _ _ => Ok tt) (Ok "The Daily") (fun _ => Ok "Body text")
    (Raise (mkExc PlaywrightTimeoutError "Timeout 30000ms exceeded."))
    (Ok tt) (Ok tt).

(** Everything is extracted, then [browser.close()] raises. *)
Definition pw_close_fails : Playwright :=
  mkPlaywright (Ok tt) (fun _ => Ok tt) (Ok tt) (fun _ _ _ => Ok tt)
    (fun _ _ => Ok tt) (Ok "The Daily") (fun _ => Ok "Body text")
    (Ok "<html></html>")
    (Raise (mkExc OtherException "Connection closed")) (Ok tt).

Definition no_fault : FsOp -> option Exc := fun _ => None.

(** The disk is full: nothing can be written. *)
Definition write_fault : FsOp -> option Exc :=
  fun op =>
    match op with
    | OpWrite _ => Some (mkExc OtherException "No space left on device")
    | _ => None
    end.


Definition empty_world : World := mkWorld [] ∅ [].

Definition sample_path : Path := ["output"; "statcan_daily.json"].

(** A world in which the output file exists already. *)
Definition stale_world : World :=
  mkWorld [] (<[sample_path := File "stale"]> (<[["output"] := Dir]> ∅)) [].

(* ===================================================================== *)
(** ** Vocabulary of the properties *)
(* ===================================================================== *)

(** A statement keeps a property of its state, whether it returns or
    raises. *)
Definition preserves {S A} (P : S -> Prop) (m : M S A) : Prop :=
  forall s, P s -> P (snd (m s)).

(** A statement returns from every state. *)
Definition returns {S A} (m : M S A) : Prop :=
  forall s, exists a s', m s = (Ok a, s').

(** A property of the locals that no call into Playwright and no
    assignment to a field other than [url] can break. *)
Definition stable (P : Locals -> Prop) : Prop :=
  (forall ev l, P l -> P (mkLocals (l_result l) (log_event ev (l_world l))))
  /\ (forall l b, P l -> P (mkLocals (set_success b (l_result l)) (l_world l)))
  /\ (forall l v, P l -> P (mkLocals (set_title v (l_result l)) (l_world l)))
  /\ (forall l v, P l -> P (mkLocals (set_content v (l_result l)) (l_world l)))
  /\ (forall l v, P l -> P (mkLocals (set_html v (l_result l)) (l_world l)))
  /\ (forall l v, P l -> P (mkLocals (set_error v (l_result l)) (l_world l))).

(** Navigation succeeded: [goto] returned and so did the wait for the
    selector, when there is one. *)
Definition navigated (pw : Playwright) (url_ : string) (timeout : Z)
    (sel : option string) : Prop :=
  pw_goto pw url_ timeout "networkidle" = Ok tt /\
  (truthy sel = true ->
   pw_wait_for_selector pw (selector_of sel) timeout = Ok tt).

(** [extraction_failure pw url timeout sel t c]: a call of navigation, of
    the wait for the selector or of extraction raises, the ones before it
    having returned; [t] and [c] are the title and the text that
    Playwright had returned by then, empty when not asked yet. *)
Inductive extraction_failure (pw : Playwright) (url_ : string) (timeout : Z)
    (sel : option string) : string -> string -> Prop :=
| fail_goto e :
    pw_goto pw url_ timeout "networkidle" = Raise e ->
    extraction_failure pw url_ timeout sel "" ""
| fail_wait e :
    pw_goto pw url_ timeout "networkidle" = Ok tt ->
    truthy sel = true ->
    pw_wait_for_selector pw (selector_of sel) timeout = Raise e ->
    extraction_failure pw url_ timeout sel "" ""
| fail_title e :
    navigated pw url_ timeout sel ->
    pw_title pw = Raise e ->
    extraction_failure pw url_ timeout sel "" ""
| fail_inner_text t e :
    navigated pw url_ timeout sel ->
    pw_title pw = Ok t ->
    pw_inner_text pw "body" = Raise e ->
    extraction_failure pw url_ timeout sel t ""
| fail_content t c e :
    navigated pw url_ timeout sel ->
    pw_title pw = Ok t ->
    pw_inner_text pw "body" = Ok c ->
    pw_content pw = Raise e ->
    extraction_failure pw url_ timeout sel t c.

(** [write_fails fault fs p data e]: creating the parent directories of
    [p], opening [p] for writing or writing [data] raises [e], the steps
    before it having succeeded. *)
Inductive write_fails (fault_of : FsOp -> option Exc) (fs : gmap Path node)
    (p : Path) (data : string) (e : Exc) : Prop :=
| fails_mkdir fs1 :
    Fs.mkdir_parents fault_of (Fs.parent p) fs = (Raise e, fs1) ->
    write_fails fault_of fs p data e
| fails_open fs1 fs2 :
    Fs.mkdir_parents fault_of (Fs.parent p) fs = (Ok tt, fs1) ->
    Fs.open_w fault_of p fs1 = (Raise e, fs2) ->
    write_fails fault_of fs p data e
| fails_write fs1 fs2 fs3 :
    Fs.mkdir_parents fault_of (Fs.parent p) fs = (Ok tt, fs1) ->
    Fs.open_w fault_of p fs1 = (Ok tt, fs2) ->
    Fs.write fault_of p data fs2 = (Raise e, fs3) ->
    write_fails fault_of fs p data e.

(** The dictionary that [scrape_statistics_canada_daily] saves. *)
Definition save_data_of (r : ScrapeResult) : list (string * string) :=
  [("url", url r); ("title", title r); ("content", content r)].

(** The inner call of [scrape_page], with the arguments that
    [scrape_statistics_canada_daily] passes (line 89). *)
Definition inner_scrape (env : Env) (w : World)
  : outcome ScrapeResult * World :=
  scrape_page (env_pw env) statcan_url default_headless default_timeout
    (Some "main") w.

Ltac simpl_world :=
  cbn beta iota delta [w_fs w_trace w_stdout set_fs fst snd].

Ltac unfold_scrape_page :=
  unfold scrape_page, scrape_page_try, try_except, scrape_page_with, with_,
    scrape_page_body, bind, invoke, assign, modify, ret.

(** Case analysis on the next answer of Playwright that decides the
    path. *)
Ltac next_answer :=
  match goal with
  | |- context [match ?o with Ok _ => _ | Raise _ => _ end] =>
      destruct o as [? | ?] eqn:?
  | |- context [match exc_class ?e with _ => _ end] =>
      destruct (exc_class e) eqn:?
  end;
  repeat match goal with u : unit |- _ => destruct u end;
  cbn.

Ltac all_paths := unfold_scrape_page; cbn; repeat next_answer.

(* ===================================================================== *)
(** ** Vocabulary of the further properties *)
(* ===================================================================== *)

Definition raised {A} (o : outcome A) : option Exc :=
  match o with
  | Ok _ => None
  | Raise e => Some e
  end.

(** The exception with which Playwright answers a call, when it raises. *)
Definition answer (pw : Playwright) (ev : Event) : option Exc :=
  match ev with
  | EvEnter => raised (pw_enter pw)
  | EvLaunch h => raised (pw_launch pw h)
  | EvNewPage => raised (pw_new_page pw)
  | EvGoto u t wait_until => raised (pw_goto pw u t wait_until)
  | EvWaitForSelector s t => raised (pw_wait_for_selector pw s t)
  | EvTitle => raised (pw_title pw)
  | EvInnerText s => raised (pw_inner_text pw s)
  | EvContent => raised (pw_content pw)
  | EvClose => raised (pw_close pw)
  | EvExit => raised (pw_exit pw)
  end.

(** The calls of lines 49-66 in program order, as they are made when none
    of them raises. *)
Definition planned_calls (url_ : string) (headless : bool) (timeout : Z)
    (sel : option string) : list Event :=
  [EvLaunch headless; EvNewPage; EvGoto url_ timeout "networkidle"]
  ++ (if truthy sel then [EvWaitForSelector (selector_of sel) timeout] else [])
  ++ [EvTitle; EvInnerText "body"; EvContent; EvClose].

(** A sequence of calls cut behind the first one that raises. *)
Fixpoint up_to_first_raise (f : Event -> option Exc) (l : list Event)
  : list Event :=
  match l with
  | [] => []
  | ev :: rest =>
      match f ev with
      | Some _ => [ev]
      | None => ev :: up_to_first_raise f rest
      end
  end.

(** The exception of the first call of a sequence that raises. *)
Fixpoint first_raise (f : Event -> option Exc) (l : list Event) : option Exc :=
  match l with
  | [] => None
  | ev :: rest =>
      match f ev with
      | Some e => Some e
      | None => first_raise f rest
      end
  end.

(** The calls one would expect of [scrape_page]: the entry of the
    context; then, if it returned, the planned calls up to the first that
    raises, and the exit of the context. *)
Definition calls_made (pw : Playwright) (url_ : string) (headless : bool)
    (timeout : Z) (sel : option string) : list Event :=
  match pw_enter pw with
  | Raise _ => [EvEnter]
  | Ok _ =>
      EvEnter :: up_to_first_raise (answer pw)
                   (planned_calls url_ headless timeout sel) ++ [EvExit]
  end.

(** The exception one would expect the handlers to see: that of the entry
    of the context; else that of its exit; else that of the first planned
    call that raised. *)
Definition reported_exception (pw : Playwright) (url_ : string)
    (headless : bool) (timeout : Z) (sel : option string) : option Exc :=
  match pw_enter pw with
  | Raise e => Some e
  | Ok _ =>
      match pw_exit pw with
      | Raise e => Some e
      | Ok _ => first_raise (answer pw) (planned_calls url_ headless timeout sel)
      end
  end.

Definition error_text (o : option Exc) : string :=
  match o with
  | None => ""
  | Some e =>
      match exc_class e with
      | PlaywrightTimeoutError => "Timeout error: " +:+ exc_str e
      | OtherException => "Error scraping page: " +:+ exc_str e
      end
  end.

(** Every call up to and including [page.content()] returns. *)
Definition extraction_completes (pw : Playwright) (url_ : string)
    (headless : bool) (timeout : Z) (sel : option string) : Prop :=
  pw_enter pw = Ok tt /\ pw_launch pw headless = Ok tt /\
  pw_new_page pw = Ok tt /\ navigated pw url_ timeout sel /\
  (exists t, pw_title pw = Ok t) /\
  (exists c, pw_inner_text pw "body" = Ok c) /\
  (exists h, pw_content pw = Ok h).

(** The calls of lines 49-57: up to the navigation and the wait for the
    selector. *)
Definition navigation_calls (url_ : string) (headless : bool) (timeout : Z)
    (sel : option string) : list Event :=
  [EvLaunch headless; EvNewPage; EvGoto url_ timeout "networkidle"]
  ++ (if truthy sel then [EvWaitForSelector (selector_of sel) timeout] else []).

(** What a field of the record holds after an assignment
    [result[...] = call()] that comes after the calls [before]: the value
    that [call] returned, when the context was entered and all of [before]
    and [call] returned; the empty string that the record was created
    with, when the assignment was not reached. *)
Definition field_after (pw : Playwright) (before : list Event)
    (call : outcome string) : string :=
  match pw_enter pw, first_raise (answer pw) before, call with
  | Ok _, None, Ok v => v
  | _, _, _ => ""
  end.

(** A path whose components are all names: none of them is [..]. *)
Definition plain (p : Path) : Prop := ~ In ".." p.

(** The standard output accepts every line of a list. *)
Definition accepted (fault_of : FsOp -> option Exc) (lines : list Line)
  : Prop :=
  forall l, In l lines -> fault_of (OpPrint l) = None.

(** The lines that [scrape_statistics_canada_daily] prints before it
    turns to the file, after a scrape that returned [r]. *)
Definition progress_lines (r : ScrapeResult) : list Line :=
  LineScraping statcan_url ::
  (if success r
   then [LineScraped (title r); LineContentLength (py_len (content r))]
   else [LineError (error r)]).

(** The world after the run: the calls of the one scrape, a file system
    and the lines printed. *)
Definition after_run (w : World) (calls : list Event) (fs : gmap Path node)
    (lines : list Line) : World :=
  mkWorld (w_trace w ++ calls) fs (w_stdout w ++ lines).

(** The file system is a tree: whatever it holds lies in a directory. *)
Definition is_tree (fs : gmap Path node) : Prop :=
  forall q n, fs !! q = Some n -> Fs.is_dir fs (Fs.parent q) = true.

(** Navigation times out, and leaving the context raises in turn. *)
Definition pw_exit_fails : Playwright :=
  mkPlaywright (Ok tt) (fun _ => Ok tt) (Ok tt)
    (fun _ _ _ => Raise (mkExc PlaywrightTimeoutError "Timeout 30000ms exceeded."))
    (fun _ _ => Ok tt) (Ok "The Daily") (fun _ => Ok "Body text")
    (Ok "<html></html>") (Ok tt)
    (Raise (mkExc OtherException "Driver stopped")).

(** A world in which a file stands where the output directory should
    be. *)
Definition blocked_world : World :=
  mkWorld [] (<[["output"] := File "not a directory"]> ∅) [].

(** A world in which the output path is a directory. *)
Definition directory_world : World :=
  mkWorld [] (<[sample_path := Dir]> (<[["output"] := Dir]> ∅)) [].

(* ===================================================================== *)
(** * Properties *)
(* ===================================================================== *)

(** ** The model at work *)

(** The successful path: every field filled, nine calls, the last two
    [browser.close()] and the exit of the context. *)
Example scrape_page_success :
  scrape_page pw_fine statcan_url true 30000 None empty_world =
  (Ok (mkResult true statcan_url "The Daily" "Body text" "<html></html>" ""),
   mkWorld [EvEnter; EvLaunch true; EvNewPage;
            EvGoto statcan_url 30000 "networkidle";
            EvTitle; EvInnerText "body"; EvContent; EvClose; EvExit]
           ∅ []).
Proof. reflexivity. Qed.

(** Navigation times out: nothing is extracted, [browser.close()] is not
    reached, the context is left. *)
Example scrape_page_timeout :
  scrape_page pw_goto_timeout statcan_url true 30000 (Some "main") empty_world =
  (Ok (mkResult false statcan_url "" "" ""
         "Timeout error: Timeout 30000ms exceeded."),
   mkWorld [EvEnter; EvLaunch true; EvNewPage;
            EvGoto statcan_url 30000 "networkidle"; EvExit]
           ∅ []).
Proof. reflexivity. Qed.

(** A line feed and a quote are escaped, the two bytes of an accented
    letter are not. *)
Example escape_example :
  Json.escape (String "010" (String Json.dquote "é")) =
  String Json.bslash (String "n" (String Json.bslash (String Json.dquote "é"))).
Proof. reflexivity. Qed.

(** What the sample runner prints and saves when all goes well. *)
Example sample_run_output :
  let w' := snd (scrape_statistics_canada_daily (mkEnv pw_fine no_fault)
                   (Some sample_path) empty_world) in
  w_stdout w' = [LineScraping statcan_url; LineScraped "The Daily";
                 LineContentLength 9; LineSaved sample_path] /\
  w_fs w' !! ["output"] = Some Dir /\
  w_fs w' !! sample_path =
    Some (File (Json.dumps_indent2
                  [("url", statcan_url); ("title", "The Daily");
                   ("content", "Body text")])).
Proof. repeat split; reflexivity. Qed.

(** ** Statements that keep a property of the state, and statements that
    always return *)

Lemma preserves_ret {S A} (P : S -> Prop) (a : A) : preserves P (ret a).
Proof. intros s Hs. exact Hs. Qed.

Lemma preserves_bind {S A B} (P : S -> Prop) (m : M S A) (k : A -> M S B) :
  preserves P m -> (forall a, preserves P (k a)) -> preserves P (bind m k).
Proof.
  intros Hm Hk s Hs. unfold bind.
  specialize (Hm s Hs). destruct (m s) as [[a | e] s']; simpl in *.
  - apply Hk, Hm.
  - exact Hm.
Qed.

Lemma preserves_with {S A} (P : S -> Prop) (enter exit_ : M S unit)
    (body : M S A) :
  preserves P enter -> preserves P exit_ -> preserves P body ->
  preserves P (with_ enter exit_ body).
Proof.
  intros He Hx Hb s Hs. unfold with_.
  specialize (He s Hs). destruct (enter s) as [[u | e] s1]; simpl in *;
    [| exact He].
  specialize (Hb s1 He). destruct (body s1) as [[a | e] s2]; simpl in *;
    specialize (Hx s2 Hb); destruct (exit_ s2) as [[u' | e'] s3];
    simpl in *; exact Hx.
Qed.

Lemma preserves_try_except {S} (P : S -> Prop) (body : M S unit)
    (h1 h2 : Exc -> M S unit) :
  preserves P body -> (forall e, preserves P (h1 e)) ->
  (forall e, preserves P (h2 e)) -> preserves P (try_except body h1 h2).
Proof.
  intros Hb H1 H2 s Hs. unfold try_except.
  specialize (Hb s Hs). destruct (body s) as [[u | e] s']; simpl in *;
    [exact Hb |].
  destruct (exc_class e); [apply H1 | apply H2]; exact Hb.
Qed.

Lemma preserves_invoke {A} (P : Locals -> Prop) ev (answer : outcome A) :
  (forall l, P l -> P (mkLocals (l_result l) (log_event ev (l_world l)))) ->
  preserves P (invoke ev answer).
Proof. intros H l Hl. simpl. apply H, Hl. Qed.

Lemma preserves_assign (P : Locals -> Prop) f :
  (forall l, P l -> P (mkLocals (f (l_result l)) (l_world l))) ->
  preserves P (assign f).
Proof. intros H l Hl. simpl. apply H, Hl. Qed.

(** A [try] whose handlers return catches everything. *)
Lemma try_except_returns {S} (body : M S unit) (h1 h2 : Exc -> M S unit) :
  (forall e, returns (h1 e)) -> (forall e, returns (h2 e)) ->
  returns (try_except body h1 h2).
Proof.
  intros H1 H2 s. unfold try_except.
  destruct (body s) as [[u | e] s'].
  - exists u, s'. reflexivity.
  - destruct (exc_class e); [apply H1 | apply H2].
Qed.

Lemma assign_returns f : returns (assign f).
Proof. intros l. eexists _, _. reflexivity. Qed.

(** ** scrape_page: what every path has in common *)

Section ScrapePageFacts.

Variable pw : Playwright.
Variables (url_ : string) (headless : bool) (timeout : Z)
          (sel : option string).

Lemma scrape_page_try_preserves (P : Locals -> Prop) :
  stable P -> preserves P (scrape_page_try pw url_ headless timeout sel).
Proof.
  intros (Hev & Hs & Ht & Hc & Hh & He).
  unfold scrape_page_try.
  apply preserves_try_except;
    [| intros e; apply preserves_assign; auto
     | intros e; apply preserves_assign; auto].
  unfold scrape_page_with.
  apply preserves_with; try (apply preserves_invoke; auto).
  unfold scrape_page_body.
  repeat first
    [ apply preserves_bind; [| intros ?]
    | apply preserves_invoke; solve [auto]
    | apply preserves_assign; solve [auto]
    | apply preserves_ret
    | match goal with |- preserves _ (if ?b then _ else _) => destruct b end ].
Qed.

Lemma scrape_page_try_returns :
  returns (scrape_page_try pw url_ headless timeout sel).
Proof.
  unfold scrape_page_try.
  apply try_except_returns; intros e; apply assign_returns.
Qed.

(** [scrape_page] returns, and what it returns is what the [try]
    statement left in [result]. *)
Lemma scrape_page_run (w : World) :
  exists l,
    snd (scrape_page_try pw url_ headless timeout sel
           (mkLocals (mkResult false url_ "" "" "" "") w)) = l /\
    scrape_page pw url_ headless timeout sel w = (Ok (l_result l), l_world l).
Proof.
  unfold scrape_page.
  destruct (scrape_page_try_returns (mkLocals (mkResult false url_ "" "" "" "") w))
    as (u & l & Hrun).
  rewrite Hrun. exists l. split; reflexivity.
Qed.

(** [scrape_page] touches neither the files nor the standard output. *)
Lemma scrape_page_frame (w : World) :
  exists r w',
    scrape_page pw url_ headless timeout sel w = (Ok r, w') /\
    w_fs w' = w_fs w /\ w_stdout w' = w_stdout w.
Proof.
  destruct (scrape_page_run w) as (l & Hl & Hrun).
  exists (l_result l), (l_world l). split; [exact Hrun |].
  rewrite <- Hl.
  apply (scrape_page_try_preserves
           (fun l => w_fs (l_world l) = w_fs w /\
                     w_stdout (l_world l) = w_stdout w)).
  - unfold stable. simpl. tauto.
  - simpl. split; reflexivity.
Qed.

End ScrapePageFacts.

(** ** scrape_page: the claims *)

(** [scrape_page] never raises: whatever Playwright answers, the [try]
    statement catches it and the dictionary is returned.  (Used by the
    claims below; the handlers are total, so nothing escapes.) *)
Lemma scrape_page_never_raises pw url_ headless timeout sel w :
  exists r w', scrape_page pw url_ headless timeout sel w = (Ok r, w').
Proof.
  destruct (scrape_page_run pw url_ headless timeout sel w) as (l & _ & Hrun).
  eauto.
Qed.

(** What the two handlers write: the text of the exception behind the
    prefix of its class, whatever call raised it. *)
Lemma scrape_page_error_prefix pw url_ headless timeout sel w e l :
  scrape_page_with pw url_ headless timeout sel
    (mkLocals (mkResult false url_ "" "" "" "") w) = (Raise e, l) ->
  exists r w',
    scrape_page pw url_ headless timeout sel w = (Ok r, w') /\
    match exc_class e with
    | PlaywrightTimeoutError => error r = "Timeout error: " +:+ exc_str e
    | OtherException => error r = "Error scraping page: " +:+ exc_str e
    end.
Proof.
  intros Hwith. unfold scrape_page, scrape_page_try, try_except.
  rewrite Hwith. destruct (exc_class e); cbn; eexists _, _; split; reflexivity.
Qed.

(** C10. For every input, the [url] field of the record returned by
    [scrape_page] is the [url] argument as passed in, on the success path
    and on every failure path: it is set when the record is created and
    never assigned again. *)
Theorem scrape_page_url_is_argument pw url_ headless timeout sel w :
  exists r w',
    scrape_page pw url_ headless timeout sel w = (Ok r, w') /\ url r = url_.
Proof.
  destruct (scrape_page_run pw url_ headless timeout sel w) as (l & Hl & Hrun).
  exists (l_result l), (l_world l). split; [exact Hrun |].
  rewrite <- Hl.
  apply (scrape_page_try_preserves pw url_ headless timeout sel
           (fun l => url (l_result l) = url_)).
  - unfold stable. simpl. tauto.
  - reflexivity.
Qed.

(** C9. An empty [wait_for_selector] is treated like an absent one: the
    call returns what it returns for [None], it does not depend on what
    [page.wait_for_selector] would answer, and no wait for a selector is
    among the calls it makes. *)
Theorem empty_selector_is_no_selector pw url_ headless timeout w :
  scrape_page pw url_ headless timeout (Some "") w =
  scrape_page pw url_ headless timeout None w /\
  (forall answer,
     scrape_page
       (mkPlaywright (pw_enter pw) (pw_launch pw) (pw_new_page pw) (pw_goto pw)
          answer (pw_title pw) (pw_inner_text pw) (pw_content pw)
          (pw_close pw) (pw_exit pw))
       url_ headless timeout (Some "") w =
     scrape_page pw url_ headless timeout (Some "") w) /\
  exists r w' calls,
    scrape_page pw url_ headless timeout (Some "") w = (Ok r, w') /\
    w_trace w' = w_trace w ++ calls /\
    forall s t, ~ In (EvWaitForSelector s t) calls.
Proof.
  split; [reflexivity |]. split; [intros answer; reflexivity |].
  all_paths.
  all: unfold log_event; cbn; rewrite <- ?app_assoc; cbn.
  all: eexists _, _, _; split; [reflexivity |]; cbn; split; [reflexivity |].
  all: intros s t Hin; cbn in Hin; intuition discriminate.
Qed.

(** The calls once the browser is launched: the exit of the
    [sync_playwright()] context is the last one on every path, and
    [browser.close()] is among them exactly when the extraction
    succeeded. *)
Lemma context_exit_is_last_call pw url_ headless timeout sel w :
  pw_enter pw = Ok tt ->
  pw_launch pw headless = Ok tt ->
  exists r w' calls,
    scrape_page pw url_ headless timeout sel w = (Ok r, w') /\
    w_trace w' = w_trace w ++ [EvEnter; EvLaunch headless] ++ calls ++ [EvExit] /\
    ~ In (EvLaunch headless) calls /\
    (success r = true -> In EvClose calls) /\
    (success r = false -> ~ In EvClose calls).
Proof.
  intros Henter Hlaunch.
  destruct (truthy sel) eqn:Hsel.
  all: unfold_scrape_page; cbn; rewrite Henter, Hlaunch, Hsel; cbn.
  all: repeat next_answer.
  all: unfold log_event; cbn; rewrite <- ?app_assoc; cbn.
  all: eexists _, _, _; split; [reflexivity |]; cbn.
  all: split;
    [ match goal with
      | |- _ ++ EvEnter :: EvLaunch _ :: ?rest = _ =>
          let calls := constr:(removelast rest) in
          let calls' := eval cbn in calls in
          instantiate (1 := calls')
      end; reflexivity |].
  all: repeat split; cbn; intuition discriminate.
Qed.


(** C1, refuted as stated: the title has been read when
    [page.inner_text] raises, so the record reports a failure and still
    carries a title. *)
Lemma invariant_fails_after_partial_extraction :
  exists r w',
    scrape_page pw_inner_text_fails statcan_url true 30000 (Some "main")
      empty_world = (Ok r, w') /\
    ~ spec_invariant r.
Proof.
  eexists _, _. split; [reflexivity |].
  unfold spec_invariant. cbn.
  intros [[Hs _] | (_ & _ & Ht & _)]; discriminate.
Qed.

(** C1, as amended. For every input the record returned by
    [scrape_page] satisfies: [title], [content] and [html] each hold what
    the page returned for it when every call up to and including its own
    returned, and are empty otherwise, so that what was extracted before
    a failure stays in the record; when [error] is empty, [success] is
    true; when [success] is true, the three fields are what the page
    returned; when [success] is false, [error] is not empty and [html] is
    empty. *)
Theorem scrape_page_result_shape pw url_ headless timeout sel w :
  exists r w',
    scrape_page pw url_ headless timeout sel w = (Ok r, w') /\
    title r =
      field_after pw (navigation_calls url_ headless timeout sel)
        (pw_title pw) /\
    content r =
      field_after pw (navigation_calls url_ headless timeout sel ++ [EvTitle])
        (pw_inner_text pw "body") /\
    html r =
      field_after pw
        (navigation_calls url_ headless timeout sel
         ++ [EvTitle; EvInnerText "body"])
        (pw_content pw) /\
    (error r = "" -> success r = true) /\
    (success r = true ->
       pw_title pw = Ok (title r) /\
       pw_inner_text pw "body" = Ok (content r) /\
       pw_content pw = Ok (html r)) /\
    (success r = false ->
       error r <> "" /\ html r = "" /\
       (title r = "" \/ pw_title pw = Ok (title r)) /\
       (content r = "" \/
        (pw_title pw = Ok (title r) /\
         pw_inner_text pw "body" = Ok (content r)))).
Proof.
  unfold field_after, navigation_calls.
  destruct (truthy sel) eqn:Hsel.
  all: unfold_scrape_page; cbn; rewrite Hsel; cbn.
  all: repeat next_answer.
  all: eexists _, _; split; [reflexivity |]; cbn.
  all: repeat split; intros; try discriminate; auto.
Qed.

(** C2, refuted as stated: title and text have been read when
    [page.content] times out, and both stay in the record of the
    failure. *)
Lemma partial_results_survive_failure :
  extraction_failure pw_content_fails statcan_url 30000 (Some "main")
    "The Daily" "Body text" /\
  exists r w',
    scrape_page pw_content_fails statcan_url true 30000 (Some "main")
      empty_world = (Ok r, w') /\
    success r = false /\
    ~ (title r = "" /\ content r = "" /\ html r = "").
Proof.
  split.
  - eapply fail_content; try reflexivity. split; reflexivity.
  - eexists _, _. split; [reflexivity |]. cbn. split; [reflexivity |].
    intros (Ht & _). discriminate.
Qed.

(** C2, as amended. When a call of navigation, of the selector wait or of
    extraction raises after the browser was launched, the record has
    [success] false, a non-empty [error], the [url] argument, an empty
    [html], and in [title] and [content] what had been extracted before
    the failing call: nothing when navigation, the wait or [page.title]
    fails, the title when [page.inner_text] fails, the title and the text
    when [page.content] fails. *)
Theorem failure_keeps_extracted_fields pw url_ headless timeout sel w t c :
  pw_enter pw = Ok tt ->
  pw_launch pw headless = Ok tt ->
  pw_new_page pw = Ok tt ->
  extraction_failure pw url_ timeout sel t c ->
  exists r w',
    scrape_page pw url_ headless timeout sel w = (Ok r, w') /\
    success r = false /\ error r <> "" /\ url r = url_ /\
    title r = t /\ content r = c /\ html r = "".
Proof.
  intros Henter Hlaunch Hpage Hfail.
  unfold_scrape_page; cbn. rewrite Henter, Hlaunch, Hpage; cbn.
  inversion Hfail as
    [ e Hgoto | e Hgoto Hsel Hwait | e [Hgoto Hwait] Htitle
    | t' e [Hgoto Hwait] Htitle Htext
    | t' c' e [Hgoto Hwait] Htitle Htext Hhtml ]; subst;
    rewrite Hgoto; cbn.
  - repeat next_answer; eexists _, _; (split; [reflexivity |]); cbn;
      repeat split; discriminate.
  - rewrite Hsel, Hwait; cbn.
    repeat next_answer; eexists _, _; (split; [reflexivity |]); cbn;
      repeat split; discriminate.
  - destruct (truthy sel); [rewrite (Hwait eq_refl) |]; cbn;
      rewrite Htitle; cbn;
      repeat next_answer; eexists _, _; (split; [reflexivity |]); cbn;
      repeat split; discriminate.
  - destruct (truthy sel); [rewrite (Hwait eq_refl) |]; cbn;
      rewrite Htitle; cbn; rewrite Htext; cbn;
      repeat next_answer; eexists _, _; (split; [reflexivity |]); cbn;
      repeat split; discriminate.
  - destruct (truthy sel); [rewrite (Hwait eq_refl) |]; cbn;
      rewrite Htitle; cbn; rewrite Htext; cbn; rewrite Hhtml; cbn;
      repeat next_answer; eexists _, _; (split; [reflexivity |]); cbn;
      repeat split; discriminate.
Qed.

(** C2, at a concrete input: [page.content] times out. *)
Lemma failure_keeps_extracted_fields_witness :
  exists r w',
    scrape_page pw_content_fails statcan_url true 30000 (Some "main")
      empty_world = (Ok r, w') /\
    success r = false /\ error r <> "" /\ url r = statcan_url /\
    title r = "The Daily" /\ content r = "Body text" /\ html r = "".
Proof.
  apply (failure_keeps_extracted_fields pw_content_fails statcan_url true 30000
           (Some "main") empty_world "The Daily" "Body text");
    try reflexivity.
  eapply fail_content; try reflexivity. split; reflexivity.
Defined.

(** C4, the failing case: everything is extracted, then [browser.close()]
    raises.  The exception is caught by the generic handler, which writes
    [error], while [success] has been set already and stays set. *)
Theorem close_failure_keeps_success_set :
  exists w',
    scrape_page pw_close_fails statcan_url true 30000 (Some "main")
      empty_world =
    (Ok (mkResult true statcan_url "The Daily" "Body text" "<html></html>"
           "Error scraping page: Connection closed"), w').
Proof. eexists. reflexivity. Qed.

(** The part of C4 that holds on every path: a timeout of navigation or
    of the selector wait is reported behind the timeout prefix, in a
    record without [success], when leaving the Playwright context does
    not raise in turn. *)
Lemma navigation_timeout_is_reported pw url_ headless timeout sel w e :
  pw_enter pw = Ok tt ->
  pw_launch pw headless = Ok tt ->
  pw_new_page pw = Ok tt ->
  pw_exit pw = Ok tt ->
  exc_class e = PlaywrightTimeoutError ->
  pw_goto pw url_ timeout "networkidle" = Raise e \/
  (pw_goto pw url_ timeout "networkidle" = Ok tt /\ truthy sel = true /\
   pw_wait_for_selector pw (selector_of sel) timeout = Raise e) ->
  exists w',
    scrape_page pw url_ headless timeout sel w =
    (Ok (mkResult false url_ "" "" "" ("Timeout error: " +:+ exc_str e)), w').
Proof.
  intros Henter Hlaunch Hpage Hexit Hclass Hfail.
  unfold_scrape_page; cbn. rewrite Henter, Hlaunch, Hpage; cbn.
  destruct Hfail as [Hgoto | (Hgoto & Hsel & Hwait)]; rewrite Hgoto; cbn.
  - rewrite Hexit, Hclass; cbn. eexists. reflexivity.
  - rewrite Hsel, Hwait; cbn. rewrite Hexit, Hclass; cbn. eexists. reflexivity.
Qed.

(** A message of the timeout handler never starts like one of the generic
    handler. *)
Lemma timeout_prefix_is_not_generic (a b : string) :
  "Timeout error: " +:+ a <> "Error scraping page: " +:+ b.
Proof. cbn. discriminate. Qed.

(** C5, the failing case: the [with] statement raises, the exception is
    caught and a record is returned, but the record says [success]. *)
Theorem recovered_failure_reports_success :
  exists e l r w',
    scrape_page_with pw_close_fails statcan_url true 30000 (Some "main")
      (mkLocals (mkResult false statcan_url "" "" "" "") empty_world)
    = (Raise e, l) /\
    scrape_page pw_close_fails statcan_url true 30000 (Some "main")
      empty_world = (Ok r, w') /\
    success r = true /\ error r <> "".
Proof.
  eexists _, _, _, _. split; [reflexivity |]. split; [reflexivity |].
  cbn. split; [reflexivity | discriminate].
Qed.

(** ** scrape_page and the world *)

(** The record and the calls do not depend on the world in which
    [scrape_page] runs, and the calls are all it adds to the world. *)
Lemma scrape_page_world pw url_ headless timeout sel :
  exists r calls,
    forall w,
      scrape_page pw url_ headless timeout sel w =
      (Ok r, mkWorld (w_trace w ++ calls) (w_fs w) (w_stdout w)).
Proof.
  destruct (truthy sel) eqn:Hsel.
  all: unfold_scrape_page; cbn; rewrite Hsel; cbn.
  all: repeat next_answer.
  all: unfold log_event; cbn.
  all: eexists _, _; intros w; rewrite <- ?app_assoc; cbn; reflexivity.
Qed.

Lemma scrape_page_result_any_world pw url_ headless timeout sel w w0 :
  fst (scrape_page pw url_ headless timeout sel w) =
  fst (scrape_page pw url_ headless timeout sel w0).
Proof.
  destruct (scrape_page_world pw url_ headless timeout sel) as (r & calls & H).
  rewrite (H w), (H w0). reflexivity.
Qed.

(** ** Reading back what json.dump wrote *)

Module JsonFacts.

Import Json JsonRead.

Local Arguments String.append !_ _ / : simpl nomatch.

Lemma append_assoc (a b c : string) : (a +:+ b) +:+ c = a +:+ (b +:+ c).
Proof. induction a as [| x a IH]; cbn; [reflexivity | f_equal; exact IH]. Qed.

Lemma length_append (a b : string) :
  String.length (a +:+ b) = (String.length a + String.length b)%nat.
Proof. induction a as [| x a IH]; cbn; [reflexivity | f_equal; exact IH]. Qed.

(** One escaped character is read back as that character. *)
Lemma read_escape_char (c : ascii) (rest : string) :
  read_string_body (escape_char c +:+ rest) =
  match read_string_body rest with
  | Some (txt, after) => Some (String c txt, after)
  | None => None
  end.
Proof.
  destruct c as [b0 b1 b2 b3 b4 b5 b6 b7].
  destruct b0, b1, b2, b3, b4, b5, b6, b7;
    match goal with
    | |- context [escape_char ?c] =>
        let e := eval vm_compute in (escape_char c) in
        change (escape_char c) with e
    end;
    cbn; destruct (read_string_body rest) as [[txt after] |]; reflexivity.
Qed.

Lemma read_escape (s rest : string) :
  read_string_body (escape s +:+ String dquote rest) = Some (s, rest).
Proof.
  induction s as [| c s IH]; cbn [escape].
  - reflexivity.
  - rewrite append_assoc, read_escape_char, IH. reflexivity.
Qed.

Lemma read_json_string (s rest : string) :
  read_string (json_string s +:+ rest) = Some (s, rest).
Proof.
  unfold json_string. cbn. rewrite append_assoc. cbn. apply read_escape.
Qed.

(** A serialised dictionary that is not empty starts with the quote of
    its first key. *)
Lemma json_items_head (d : list (string * string)) (rest : string) :
  d <> [] ->
  exists t, json_items item_sep d +:+ rest = String dquote t.
Proof.
  destruct d as [| [k v] d]; [congruence | intros _].
  destruct d as [| kv d]; cbn -[item_sep]; unfold json_item, json_string;
    cbn -[item_sep]; eexists; reflexivity.
Qed.

Lemma read_json_item (k v rest : string) :
  exists s3,
    read_string (json_item (k, v) +:+ rest) = Some (k, s3) /\
    exists s2,
      expect ":" (skip_ws s3) = Some s2 /\
      read_string (skip_ws s2) = Some (v, rest).
Proof.
  unfold json_item. cbn [fst snd].
  rewrite !append_assoc, read_json_string.
  eexists. split; [reflexivity |].
  cbn. eexists. split; [reflexivity |].
  unfold json_string. cbn. rewrite append_assoc. cbn. apply read_escape.
Qed.

Lemma read_members_last (fuel : nat) (k v rest : string) :
  read_members (S fuel) (json_item (k, v) +:+ nl +:+ "}" +:+ rest)
  = Some ([(k, v)], rest).
Proof.
  cbn [read_members].
  destruct (read_json_item k v (nl +:+ "}" +:+ rest))
    as (s3 & -> & s2 & -> & ->).
  reflexivity.
Qed.

Lemma read_members_more (fuel : nat) (k v t : string) :
  read_members (S fuel) (json_item (k, v) +:+ item_sep +:+ String dquote t)
  = match read_members fuel (String dquote t) with
    | Some (d, s5) => Some ((k, v) :: d, s5)
    | None => None
    end.
Proof.
  cbn [read_members].
  destruct (read_json_item k v (item_sep +:+ String dquote t))
    as (s3 & -> & s2 & -> & ->).
  reflexivity.
Qed.

(** The members are read back, given fuel for each of them. *)
Lemma read_json_items (d : list (string * string)) :
  d <> [] ->
  forall (fuel : nat) (rest : string),
    (length d <= fuel)%nat ->
    read_members fuel (json_items item_sep d +:+ nl +:+ "}" +:+ rest)
    = Some (d, rest).
Proof.
  induction d as [| [k v] d IH]; [congruence | intros _ fuel rest Hfuel].
  destruct fuel as [| fuel]; [cbn in Hfuel; lia |].
  destruct d as [| kv d].
  - apply read_members_last.
  - change (json_items item_sep ((k, v) :: kv :: d))
      with (json_item (k, v) +:+ item_sep +:+ json_items item_sep (kv :: d)).
    rewrite !append_assoc.
    assert (Hne : kv :: d <> []) by congruence.
    destruct (json_items_head (kv :: d) (nl +:+ "}" +:+ rest) Hne) as (t & Ht).
    rewrite Ht, read_members_more, <- Ht.
    rewrite IH; [reflexivity | exact Hne | cbn in Hfuel |- *; lia].
Qed.

Lemma json_items_length (d : list (string * string)) :
  (length d <= String.length (json_items item_sep d))%nat.
Proof.
  induction d as [| [k v] d IH]; [cbn; lia |].
  destruct d as [| kv d].
  - unfold json_items, json_item, json_string. rewrite !length_append.
    cbn. lia.
  - change (json_items item_sep ((k, v) :: kv :: d))
      with (json_item (k, v) +:+ item_sep +:+ json_items item_sep (kv :: d)).
    rewrite !length_append.
    change (String.length item_sep) with 4%nat.
    cbn [length] in IH |- *. lia.
Qed.

Lemma loads_object (t : string) :
  loads ("{" +:+ nl +:+ "  " +:+ String dquote t) =
  match read_members (String.length ("{" +:+ nl +:+ "  " +:+ String dquote t))
                     (String dquote t) with
  | Some (d, s3) => match skip_ws s3 with EmptyString => Some d | _ => None end
  | None => None
  end.
Proof. reflexivity. Qed.

(** The text written for a dictionary of three items, item by item. *)
Lemma dumps_three_items (k1 v1 k2 v2 k3 v3 : string) :
  dumps_indent2 [(k1, v1); (k2, v2); (k3, v3)] =
  "{" +:+ nl +:+
  "  " +:+ json_string k1 +:+ ": " +:+ json_string v1 +:+ "," +:+ nl +:+
  "  " +:+ json_string k2 +:+ ": " +:+ json_string v2 +:+ "," +:+ nl +:+
  "  " +:+ json_string k3 +:+ ": " +:+ json_string v3 +:+ nl +:+ "}".
Proof.
  unfold dumps_indent2, json_items, json_item, item_sep. cbn [fst snd].
  rewrite !append_assoc. reflexivity.
Qed.

(** With [ensure_ascii=False] a byte of a non-ASCII character is written
    as it is. *)
Lemma escape_char_non_ascii (c : ascii) :
  (128 <= nat_of_ascii c)%nat -> escape_char c = String c EmptyString.
Proof.
  intros Hc. unfold escape_char.
  repeat match goal with
         | |- context [(?a =? ?b)%nat] =>
             destruct (Nat.eqb_spec a b); [lia |]
         | |- context [(?a <? ?b)%nat] =>
             destruct (Nat.ltb_spec a b); [lia |]
         end.
  reflexivity.
Qed.

(** What [json.dump] writes is a document that [json.loads] reads back as
    the dictionary it was given. *)
Lemma loads_dumps (d : list (string * string)) :
  loads (dumps_indent2 d) = Some d.
Proof.
  destruct d as [| kv d]; [reflexivity |].
  assert (Hne : kv :: d <> []) by congruence.
  unfold dumps_indent2.
  destruct (json_items_head (kv :: d) (nl +:+ "}") Hne) as (t & Ht).
  rewrite Ht, loads_object, <- Ht.
  change (nl +:+ "}") with (nl +:+ "}" +:+ "").
  rewrite read_json_items; [reflexivity | exact Hne |].
  rewrite !length_append.
  pose proof (json_items_length (kv :: d)). lia.
Qed.

End JsonFacts.

(** ** Creating directories and writing a file *)

Module FsFacts.

Import Fs.

Lemma is_dir_nonempty (fs : gmap Path node) (p : Path) :
  p <> [] ->
  is_dir fs p = match fs !! p with Some Dir => true | _ => false end.
Proof. destruct p; [congruence | reflexivity]. Qed.

Lemma rev_cons_nonempty {A} (x : A) (l : list A) : rev (x :: l) <> [].
Proof. cbn. destruct (rev l); discriminate. Qed.

Lemma parent_shorter (p : Path) :
  p <> [] -> (length (parent p) < length p)%nat.
Proof.
  intros Hp. unfold parent.
  rewrite (app_removelast_last "" Hp) at 2.
  rewrite length_app. cbn. lia.
Qed.

Lemma not_prefix_of_parent (p : Path) : p <> [] -> ~ p `prefix_of` parent p.
Proof.
  intros Hp Hpre. apply prefix_length in Hpre.
  pose proof (parent_shorter p Hp). lia.
Qed.

(** When the operating system refuses nothing and whatever exists on the
    way is a directory, [mkdir] returns, the directory exists, and all
    that changed is that some of its ancestors are now directories. *)
Lemma mkdir_rev_ok (fault_of : FsOp -> option Exc) (rp : list string) :
  (forall q, fault_of (OpMkdir q) = None) ->
  forall (blocked : Exc) (fs : gmap Path node),
    (forall q n, q `suffix_of` rp -> fs !! rev q = Some n -> n = Dir) ->
    exists fs',
      mkdir_rev fault_of blocked rp fs = (Ok tt, fs') /\
      is_dir fs' (rev rp) = true /\
      forall q, fs' !! q = fs !! q \/
                (fs' !! q = Some Dir /\ q `prefix_of` rev rp).
Proof.
  intros Hfault. induction rp as [| c rp IH]; intros blocked fs Hfree.
  - exists fs. repeat split. intros q. left. reflexivity.
  - cbn [mkdir_rev].
    destruct (fs !! rev (c :: rp)) as [n |] eqn:Hlook.
    + rewrite (Hfree (c :: rp) n (reflexivity _) Hlook).
      exists fs. split; [reflexivity |]. split.
      * rewrite is_dir_nonempty by apply rev_cons_nonempty. rewrite Hlook.
        rewrite (Hfree (c :: rp) n (reflexivity _) Hlook). reflexivity.
      * intros q. left. reflexivity.
    + destruct (IH NotADirectoryError fs) as (fs1 & Hrun & Hdir & Hframe).
      { intros q n Hq. apply Hfree. apply suffix_cons_r, Hq. }
      unfold bind. rewrite Hrun. unfold fault. rewrite Hfault. cbn.
      eexists. split; [reflexivity |]. split.
      * rewrite is_dir_nonempty by apply rev_cons_nonempty.
        cbn. rewrite lookup_insert_eq. reflexivity.
      * intros q. destruct (decide (q = rev rp ++ [c])) as [-> | Hne].
        -- right. rewrite lookup_insert_eq. split; reflexivity.
        -- rewrite lookup_insert_ne by congruence.
           destruct (Hframe q) as [Heq | [Heq Hpre]]; [left; exact Heq |].
           right. split; [exact Heq |]. apply prefix_app_r, Hpre.
Qed.

Lemma mkdir_parents_ok (fault_of : FsOp -> option Exc) (d : Path)
    (fs : gmap Path node) :
  (forall q, fault_of (OpMkdir q) = None) ->
  (forall q n, q `prefix_of` d -> fs !! q = Some n -> n = Dir) ->
  exists fs',
    mkdir_parents fault_of d fs = (Ok tt, fs') /\
    is_dir fs' d = true /\
    forall q, fs' !! q = fs !! q \/ (fs' !! q = Some Dir /\ q `prefix_of` d).
Proof.
  intros Hfault Hfree. unfold mkdir_parents.
  destruct (mkdir_rev_ok fault_of (rev d) Hfault FileExistsError fs)
    as (fs' & Hrun & Hdir & Hframe).
  - intros q n [k Hk] Hlook. apply (Hfree (rev q) n); [| exact Hlook].
    exists (rev k). rewrite <- rev_app_distr, <- Hk, rev_involutive.
    reflexivity.
  - rewrite rev_involutive in Hdir, Hframe. eauto.
Qed.

(** Creating the parent directories and writing the file, when nothing
    is in the way. *)
Lemma write_output_ok (fault_of : FsOp -> option Exc) (p : Path)
    (data : string) (fs : gmap Path node) :
  (forall q, fault_of (OpMkdir q) = None) ->
  fault_of (OpOpen p) = None ->
  fault_of (OpWrite p) = None ->
  has_surrogate data = false ->
  p <> [] ->
  fs !! p <> Some Dir ->
  (forall q n, q `prefix_of` parent p -> fs !! q = Some n -> n = Dir) ->
  exists fs1 fs2 fs3,
    mkdir_parents fault_of (parent p) fs = (Ok tt, fs1) /\
    open_w fault_of p fs1 = (Ok tt, fs2) /\
    write fault_of p data fs2 = (Ok tt, fs3) /\
    fs3 !! p = Some (File data) /\
    is_dir fs3 (parent p) = true /\
    forall q, q <> p -> ~ q `prefix_of` parent p -> fs3 !! q = fs !! q.
Proof.
  intros Hmkdir Hopen Hwrite Hsur Hp Hnodir Hfree.
  destruct (mkdir_parents_ok fault_of (parent p) fs Hmkdir Hfree)
    as (fs1 & Hrun & Hdir & Hframe).
  assert (Hp1 : is_dir fs1 p = false).
  { rewrite is_dir_nonempty by exact Hp.
    destruct (Hframe p) as [-> | [_ Hpre]].
    - destruct (fs !! p) as [[| old | old] |]; congruence.
    - exfalso. exact (not_prefix_of_parent p Hp Hpre). }
  exists fs1, (<[p := File ""]> fs1), (<[p := File data]> (<[p := File ""]> fs1)).
  split; [exact Hrun |]. split.
  { unfold open_w. rewrite Hp1, Hdir. cbn. unfold bind, fault.
    rewrite Hopen. reflexivity. }
  split.
  { unfold write. rewrite Hsur, Hwrite. reflexivity. }
  split; [apply lookup_insert_eq |]. split.
  - assert (Hneq : parent p <> p).
    { intros Heq. pose proof (parent_shorter p Hp) as Hlen.
      rewrite Heq in Hlen. lia. }
    destruct (parent p) as [| c d] eqn:Hparent; [reflexivity |].
    rewrite is_dir_nonempty in Hdir |- * by discriminate.
    rewrite !lookup_insert_ne by congruence. exact Hdir.
  - intros q Hq Hnot. rewrite !lookup_insert_ne by congruence.
    destruct (Hframe q) as [Heq | [_ Hpre]]; [exact Heq | contradiction].
Qed.

End FsFacts.

(** ** scrape_statistics_canada_daily: every path *)

Section SampleRunnerPaths.

Variable env : Env.

(** The run, path by path, in terms of the record [r] and the calls of
    the inner scrape.  A line that the standard output refuses ends the
    run; when it is the first one, the page has not been asked for. *)
Lemma sample_run_paths (output_file : option Path) :
  exists r calls,
    (forall w, inner_scrape env w =
               (Ok r, mkWorld (w_trace w ++ calls) (w_fs w) (w_stdout w))) /\
    forall w,
      scrape_statistics_canada_daily env output_file w =
      let scraping := LineScraping statcan_url in
      let scraped := LineScraped (title r) in
      let length_ := LineContentLength (py_len (content r)) in
      match env_fs_fault env (OpPrint scraping) with
      | Some e => (Raise e, w)
      | None =>
      if success r then
        match env_fs_fault env (OpPrint scraped) with
        | Some e => (Raise e, after_run w calls (w_fs w) [scraping])
        | None =>
        match env_fs_fault env (OpPrint length_) with
        | Some e => (Raise e, after_run w calls (w_fs w) [scraping; scraped])
        | None =>
        let lines := [scraping; scraped; length_] in
        match output_file with
        | None => (Ok r, after_run w calls (w_fs w) lines)
        | Some p =>
            match Fs.mkdir_parents (env_fs_fault env) (Fs.parent p) (w_fs w) with
            | (Raise e, fs1) => (Raise e, after_run w calls fs1 lines)
            | (Ok _, fs1) =>
                match Fs.open_w (env_fs_fault env) p fs1 with
                | (Raise e, fs2) => (Raise e, after_run w calls fs2 lines)
                | (Ok _, fs2) =>
                    match Fs.write (env_fs_fault env) p
                            (Json.dumps_indent2 (save_data_of r)) fs2 with
                    | (Raise e, fs3) => (Raise e, after_run w calls fs3 lines)
                    | (Ok _, fs3) =>
                        match env_fs_fault env (OpPrint (LineSaved p)) with
                        | Some e => (Raise e, after_run w calls fs3 lines)
                        | None =>
                            (Ok r, after_run w calls fs3
                                     (lines ++ [LineSaved p]))
                        end
                    end
                end
            end
        end
        end
        end
      else
        match env_fs_fault env (OpPrint (LineError (error r))) with
        | Some e => (Raise e, after_run w calls (w_fs w) [scraping])
        | None =>
            (Ok r, after_run w calls (w_fs w) [scraping; LineError (error r)])
        end
      end.
Proof.
  destruct (scrape_page_world (env_pw env) statcan_url default_headless
              default_timeout (Some "main")) as (r & calls & Hworld).
  exists r, calls. split; [exact Hworld |]. intros w. cbn zeta.
  unfold scrape_statistics_canada_daily, bind at 1, print at 1.
  destruct (env_fs_fault env (OpPrint (LineScraping statcan_url)));
    [reflexivity |].
  unfold bind at 1. rewrite Hworld. cbn beta iota.
  unfold after_run.
  destruct (success r); [destruct output_file as [p |] |];
    unfold bind, print, modify, with_, on_fs, ret, save_data_of; simpl_world;
    repeat match goal with
           | |- context [env_fs_fault env (OpPrint ?l)] =>
               destruct (env_fs_fault env (OpPrint l)); simpl_world
           | |- context [Fs.mkdir_parents ?f ?d ?fs] =>
               destruct (Fs.mkdir_parents f d fs) as [[[] | ?] ?]; simpl_world
           | |- context [Fs.open_w ?f ?p ?fs] =>
               destruct (Fs.open_w f p fs) as [[[] | ?] ?]; simpl_world
           | |- context [Fs.write ?f ?p ?d ?fs] =>
               destruct (Fs.write f p d fs) as [[[] | ?] ?]; simpl_world
           end;
    unfold set_fs; simpl_world; rewrite <- ?app_assoc; reflexivity.
Qed.

End SampleRunnerPaths.

(** ** scrape_statistics_canada_daily: the claims *)

Section SampleRunnerFacts.

Variable env : Env.

(** Reduces a statement about a run after a scrape that returned [r] to
    the paths of [sample_run_paths]. *)
Ltac by_inner_result out w Hres :=
  let r0 := fresh "r0" in
  let calls := fresh "calls" in
  let Hinner := fresh "Hinner" in
  let Hrun := fresh "Hrun" in
  destruct (sample_run_paths env out) as (r0 & calls & Hinner & Hrun);
  rewrite (Hinner w) in Hres; cbn [fst] in Hres; injection Hres as ->;
  rewrite (Hrun w); cbn zeta; clear Hrun Hinner.


(** C8. When the inner scrape succeeded and creating the directories,
    opening the file or writing it raises, the call raises and returns no
    record: nothing around the write catches the exception, which leaves
    [scrape_statistics_canada_daily] as it is.  (The call reaches the
    file when the standard output accepted the lines before it; a line
    refused raises as well.) *)
Theorem file_write_failure_propagates (p : Path) (w : World)
    (r : ScrapeResult) (e : Exc) :
  fst (inner_scrape env w) = Ok r ->
  success r = true ->
  write_fails (env_fs_fault env) (w_fs w) p
    (Json.dumps_indent2 (save_data_of r)) e ->
  exists e' w',
    scrape_statistics_canada_daily env (Some p) w = (Raise e', w') /\
    (accepted (env_fs_fault env) (progress_lines r) -> e' = e).
Proof.
  intros Hres Hok Hfails. by_inner_result (Some p) w Hres.
  unfold accepted, progress_lines. rewrite Hok.
  destruct (env_fs_fault env (OpPrint (LineScraping statcan_url)))
    as [e1 |] eqn:H1.
  { eexists _, _. split; [reflexivity |]. intros Hacc.
    rewrite Hacc in H1 by (left; reflexivity). discriminate. }
  destruct (env_fs_fault env (OpPrint (LineScraped (title r))))
    as [e2 |] eqn:H2.
  { eexists _, _. split; [reflexivity |]. intros Hacc.
    rewrite Hacc in H2 by (right; left; reflexivity). discriminate. }
  destruct (env_fs_fault env (OpPrint (LineContentLength (py_len (content r)))))
    as [e3 |] eqn:H3.
  { eexists _, _. split; [reflexivity |]. intros Hacc.
    rewrite Hacc in H3 by (right; right; left; reflexivity). discriminate. }
  destruct Hfails as [fs1 Hmk | fs1 fs2 Hmk Hopen | fs1 fs2 fs3 Hmk Hopen Hwrite].
  - rewrite Hmk. eexists _, _. split; reflexivity.
  - rewrite Hmk, Hopen. eexists _, _. split; reflexivity.
  - rewrite Hmk, Hopen, Hwrite. eexists _, _. split; reflexivity.
Qed.

(** C6, as amended. When the inner scrape succeeded, the standard output
    accepts the lines of the run, the operating system refuses neither
    the creation of a directory nor opening nor writing the file, no
    field to be saved holds a surrogate, the components of the path are
    names, the path is not that of a directory and whatever exists on the
    way to its parent is a directory, the call returns the record and
    afterwards: the path holds the dictionary of [url], [title] and
    [content], with these three keys only, so without [html], serialised
    with an indentation of two spaces and bytes of non-ASCII characters
    copied as they are; reading the file back gives the three fields of
    the record; the parent directory exists; whatever file the path held
    before is replaced. *)
Theorem output_file_holds_the_three_fields (p : Path) (w : World)
    (r : ScrapeResult) :
  fst (inner_scrape env w) = Ok r ->
  success r = true ->
  accepted (env_fs_fault env) (progress_lines r ++ [LineSaved p]) ->
  (forall q, env_fs_fault env (OpMkdir q) = None) ->
  env_fs_fault env (OpOpen p) = None ->
  env_fs_fault env (OpWrite p) = None ->
  Fs.has_surrogate (Json.dumps_indent2 (save_data_of r)) = false ->
  plain p ->
  p <> [] ->
  w_fs w !! p <> Some Dir ->
  (forall q n, q `prefix_of` Fs.parent p -> w_fs w !! q = Some n -> n = Dir) ->
  exists w',
    scrape_statistics_canada_daily env (Some p) w = (Ok r, w') /\
    w_fs w' !! p = Some (File (Json.dumps_indent2 (save_data_of r))) /\
    Json.dumps_indent2 (save_data_of r) =
      "{" +:+ Json.nl +:+
      "  " +:+ Json.json_string "url" +:+ ": " +:+ Json.json_string (url r)
           +:+ "," +:+ Json.nl +:+
      "  " +:+ Json.json_string "title" +:+ ": " +:+ Json.json_string (title r)
           +:+ "," +:+ Json.nl +:+
      "  " +:+ Json.json_string "content" +:+ ": "
           +:+ Json.json_string (content r) +:+ Json.nl +:+ "}" /\
    (forall c, (128 <= nat_of_ascii c)%nat ->
               Json.escape_char c = String c EmptyString) /\
    JsonRead.loads (Json.dumps_indent2 (save_data_of r)) =
      Some [("url", url r); ("title", title r); ("content", content r)] /\
    Fs.is_dir (w_fs w') (Fs.parent p) = true.
Proof.
  intros Hres Hok Hacc Hmkdir Hopen Hwrite Hsur _ Hp Hnodir Hfree.
  by_inner_result (Some p) w Hres.
  unfold accepted, progress_lines in Hacc. rewrite Hok in Hacc |- *.
  rewrite !Hacc by (cbn; tauto).
  destruct (FsFacts.write_output_ok (env_fs_fault env) p
              (Json.dumps_indent2 (save_data_of r)) (w_fs w)
              Hmkdir Hopen Hwrite Hsur Hp Hnodir Hfree)
    as (fs1 & fs2 & fs3 & Hmk & Hop & Hwr & Hfile & Hdir & _).
  rewrite Hmk, Hop, Hwr.
  eexists. split; [reflexivity |]. unfold after_run. simpl_world.
  split; [exact Hfile |].
  split; [apply JsonFacts.dumps_three_items |].
  split; [apply JsonFacts.escape_char_non_ascii |].
  split; [apply JsonFacts.loads_dumps |].
  exact Hdir.
Qed.

End SampleRunnerFacts.



(** C8, at a concrete input: the page is scraped and the disk is full. *)
Lemma file_write_failure_propagates_witness :
  exists e' w',
    scrape_statistics_canada_daily (mkEnv pw_fine write_fault)
      (Some sample_path) empty_world = (Raise e', w') /\
    e' = mkExc OtherException "No space left on device".
Proof.
  destruct (file_write_failure_propagates (mkEnv pw_fine write_fault)
              sample_path empty_world
              (mkResult true statcan_url "The Daily" "Body text"
                 "<html></html>" "")
              (mkExc OtherException "No space left on device"))
    as (e' & w' & Hrun & He); [reflexivity | reflexivity | |].
  - apply (fails_write _ _ _ _ _
             (<[["output"] := Dir]> ∅)
             (<[sample_path := File ""]> (<[["output"] := Dir]> ∅))
             (<[sample_path :=
                  Partial (Json.dumps_indent2
                             (save_data_of
                                (mkResult true statcan_url "The Daily"
                                   "Body text" "<html></html>" "")))]>
                (<[sample_path := File ""]> (<[["output"] := Dir]> ∅))));
      reflexivity.
  - exists e', w'. split; [exact Hrun |]. apply He. intros l _. reflexivity.
Defined.

(** C6, where the claim fails: the page is scraped, but a file stands
    where the directory of the output file should be.  Creating the
    directory raises, and the path holds no file after the call. *)
Theorem output_file_missing_after_successful_scrape :
  let env := mkEnv pw_fine no_fault in
  let run :=
    scrape_statistics_canada_daily env (Some sample_path) blocked_world in
  exists r e,
    fst (inner_scrape env blocked_world) = Ok r /\
    success r = true /\
    fst run = Raise e /\
    w_fs (snd run) !! sample_path = None.
Proof.
  exists (mkResult true statcan_url "The Daily" "Body text" "<html></html>" "").
  eexists. repeat split; reflexivity.
Qed.

(** C6 as amended, at a concrete input: the page is scraped and the
    output file exists already, with other content. *)
Lemma output_file_holds_the_three_fields_witness :
  let r := mkResult true statcan_url "The Daily" "Body text" "<html></html>" "" in
  exists w',
    scrape_statistics_canada_daily (mkEnv pw_fine no_fault) (Some sample_path)
      stale_world = (Ok r, w') /\
    w_fs w' !! sample_path = Some (File (Json.dumps_indent2 (save_data_of r))) /\
    JsonRead.loads (Json.dumps_indent2 (save_data_of r)) =
      Some [("url", url r); ("title", title r); ("content", content r)] /\
    Fs.is_dir (w_fs w') (Fs.parent sample_path) = true.
Proof.
  intros r.
  destruct (output_file_holds_the_three_fields (mkEnv pw_fine no_fault)
              sample_path stale_world r)
    as (w' & Hrun & Hfile & _ & _ & Hload & Hdir).
  - reflexivity.
  - reflexivity.
  - intros l _. reflexivity.
  - intros q. reflexivity.
  - reflexivity.
  - reflexivity.
  - reflexivity.
  - unfold plain, sample_path. cbn. intros [H | [H | []]]; discriminate H.
  - discriminate.
  - cbn. rewrite lookup_insert_eq. discriminate.
  - intros q n [k Hk].
    destruct q as [| a [| b q]]; cbn in Hk.
    + cbn. rewrite lookup_insert_ne by discriminate.
      rewrite lookup_insert_ne by discriminate. rewrite lookup_empty.
      discriminate.
    + injection Hk as <- Hk. cbn. rewrite lookup_insert_ne by discriminate.
      rewrite lookup_insert_eq. congruence.
    + injection Hk as _ Hk. discriminate Hk.
  - exists w'. repeat split; assumption.
Defined.

(** * Further properties *)

(** ** scrape_page: calls, error and success on every path *)

(** X1. The calls that [scrape_page] makes are the entry of the context
    and, if it returned, the planned calls in program order up to the
    first one that raises, then the exit of the context: no call is
    repeated and none is made after a failure.  The arguments reach
    Playwright as passed.  Nothing else in the world changes, and the
    record does not depend on the world. *)
Theorem scrape_page_calls pw url_ headless timeout sel :
  exists r,
    forall w,
      scrape_page pw url_ headless timeout sel w =
      (Ok r, mkWorld (w_trace w ++ calls_made pw url_ headless timeout sel)
                     (w_fs w) (w_stdout w)).
Proof.
  unfold calls_made, planned_calls.
  destruct (truthy sel) eqn:Hsel.
  all: unfold_scrape_page; cbn; rewrite Hsel; cbn.
  all: repeat next_answer.
  all: unfold log_event; cbn.
  all: eexists; intros w; rewrite <- ?app_assoc; cbn; reflexivity.
Qed.

(** X2. The [error] of the record is empty when no call raised.  When
    some call raised it is the message of one exception behind the prefix
    of its class: the exception of the entry of the context; else that of
    its exit, which replaces whatever the body raised; else that of the
    first call of the body that raised, whichever call that is. *)
Theorem scrape_page_error_reported pw url_ headless timeout sel w :
  exists r w',
    scrape_page pw url_ headless timeout sel w = (Ok r, w') /\
    error r = error_text (reported_exception pw url_ headless timeout sel).
Proof.
  unfold reported_exception, planned_calls, error_text.
  destruct (truthy sel) eqn:Hsel.
  all: unfold_scrape_page; cbn; rewrite Hsel; cbn.
  all: repeat next_answer.
  all: eexists _, _; split; [reflexivity |]; cbn.
  all: repeat match goal with
              | H : exc_class ?e = _ |- context [exc_class ?e] => rewrite H
              end.
  all: reflexivity.
Qed.

(** X3. The record says [success] exactly when every call up to and
    including [page.content()] returned; [browser.close()] and the exit
    of the context have no part in it. *)
Theorem scrape_page_success_iff pw url_ headless timeout sel w :
  exists r w',
    scrape_page pw url_ headless timeout sel w = (Ok r, w') /\
    (success r = true <-> extraction_completes pw url_ headless timeout sel).
Proof.
  unfold extraction_completes, navigated.
  destruct (truthy sel) eqn:Hsel.
  all: unfold_scrape_page; cbn; rewrite Hsel; cbn.
  all: repeat next_answer.
  all: eexists _, _; split; [reflexivity |]; cbn.
  all: split;
    [ intros Hs; try discriminate Hs;
      repeat split; eauto; intros; discriminate
    | intros (He & Hl & Hp & (Hg & Hw) & (t & Ht) & (c & Hc) & (h & Hh));
      try reflexivity; try discriminate;
      try (specialize (Hw eq_refl); discriminate) ].
Qed.
(** ** More on directories and files *)

Module FsMore.

Import Fs.

(** [exist_ok=True]: a directory that exists is left alone, and so is the
    rest of the file system. *)
Lemma mkdir_existing (fault_of : FsOp -> option Exc) (d : Path)
    (fs : gmap Path node) :
  is_dir fs d = true -> mkdir_parents fault_of d fs = (Ok tt, fs).
Proof.
  intros Hdir. unfold mkdir_parents.
  destruct (rev d) as [| c rp] eqn:Hrev; [reflexivity |].
  cbn [mkdir_rev]. rewrite <- Hrev, rev_involutive.
  assert (Hd : d <> []) by (intros ->; discriminate Hrev).
  rewrite FsFacts.is_dir_nonempty in Hdir by exact Hd.
  destruct (fs !! d) as [[| data | text] |];
    [reflexivity | discriminate | discriminate | discriminate].
Qed.

(** A file where the directory should be: [mkdir] raises and changes
    nothing. *)
Lemma mkdir_on_file (fault_of : FsOp -> option Exc) (d : Path)
    (fs : gmap Path node) (n : node) :
  d <> [] -> fs !! d = Some n -> n <> Dir ->
  mkdir_parents fault_of d fs = (Raise FileExistsError, fs).
Proof.
  intros Hd Hfile Hn. unfold mkdir_parents.
  destruct (rev d) as [| c rp] eqn:Hrev.
  - exfalso. apply Hd. rewrite <- (rev_involutive d), Hrev. reflexivity.
  - cbn [mkdir_rev]. rewrite <- Hrev, rev_involutive, Hfile.
    destruct n; [congruence | reflexivity | reflexivity].
Qed.

(** When [mkdir] returns, the directory exists. *)
Lemma mkdir_rev_returns (fault_of : FsOp -> option Exc) (blocked : Exc)
    (rp : list string) :
  forall fs fs' : gmap Path node,
    mkdir_rev fault_of blocked rp fs = (Ok tt, fs') ->
    is_dir fs' (rev rp) = true.
Proof.
  destruct rp as [| c rp]; intros fs fs' Hrun; [reflexivity |].
  rewrite FsFacts.is_dir_nonempty by apply FsFacts.rev_cons_nonempty.
  cbn [mkdir_rev] in Hrun.
  destruct (fs !! rev (c :: rp)) as [[| data | text] |] eqn:Hlook.
  - injection Hrun as <-. rewrite Hlook. reflexivity.
  - discriminate Hrun.
  - discriminate Hrun.
  - unfold bind in Hrun.
    destruct (mkdir_rev fault_of NotADirectoryError rp fs) as [[[] | e] fs1];
      [| discriminate].
    unfold fault in Hrun.
    destruct (fault_of (OpMkdir (rev (c :: rp)))); [discriminate |].
    cbn in Hrun. injection Hrun as <-.
    cbn. rewrite lookup_insert_eq. reflexivity.
Qed.

Lemma mkdir_parents_returns (fault_of : FsOp -> option Exc) (d : Path)
    (fs fs' : gmap Path node) :
  mkdir_parents fault_of d fs = (Ok tt, fs') -> is_dir fs' d = true.
Proof.
  intros Hrun. apply mkdir_rev_returns in Hrun.
  rewrite rev_involutive in Hrun. exact Hrun.
Qed.

(** What a successful [open] tells. *)
Lemma open_w_returns (fault_of : FsOp -> option Exc) (p : Path)
    (fs fs' : gmap Path node) :
  open_w fault_of p fs = (Ok tt, fs') ->
  p <> [] /\ is_dir fs p = false /\ is_dir fs (parent p) = true /\
  fault_of (OpOpen p) = None /\ fs' = <[p := File ""]> fs.
Proof.
  unfold open_w, bind, fault. intros Hrun.
  destruct (is_dir fs p) eqn:Hp; [discriminate |].
  destruct (is_dir fs (parent p)) eqn:Hparent;
    [| destruct (fs !! parent p); discriminate].
  destruct (fault_of (OpOpen p)); [discriminate |].
  cbn in Hrun. injection Hrun as <-.
  repeat split. intros ->. discriminate Hp.
Qed.

(** What a successful write tells. *)
Lemma write_returns (fault_of : FsOp -> option Exc) (p : Path)
    (data : string) (fs fs' : gmap Path node) :
  write fault_of p data fs = (Ok tt, fs') ->
  has_surrogate data = false /\ fault_of (OpWrite p) = None /\
  fs' = <[p := File data]> fs.
Proof.
  unfold write. intros Hrun.
  destruct (has_surrogate data); [discriminate |].
  destruct (fault_of (OpWrite p)); [discriminate |].
  injection Hrun as <-. repeat split.
Qed.

Lemma parent_differs (p : Path) : p <> [] -> parent p <> p.
Proof.
  intros Hp Heq. pose proof (FsFacts.parent_shorter p Hp) as Hlen.
  rewrite Heq in Hlen. lia.
Qed.

(** Writing at [p] does not make the parent of [p] less of a
    directory. *)
Lemma is_dir_parent_insert (fs : gmap Path node) (p : Path) (n : node) :
  p <> [] -> is_dir (<[p := n]> fs) (parent p) = is_dir fs (parent p).
Proof.
  intros Hp. pose proof (parent_differs p Hp) as Hne.
  destruct (parent p) as [| c d]; [reflexivity |].
  cbn. rewrite lookup_insert_ne by congruence. reflexivity.
Qed.

Lemma is_dir_insert_ne (fs : gmap Path node) (p x : Path) (n : node) :
  x <> p -> is_dir (<[p := n]> fs) x = is_dir fs x.
Proof.
  intros Hne. destruct x as [| c x]; [reflexivity |].
  cbn. rewrite lookup_insert_ne by congruence. reflexivity.
Qed.

Lemma parent_snoc (d : Path) (c : string) : parent (d ++ [c]) = d.
Proof. apply removelast_last. Qed.

(** A file, whole or partial, put where no directory is. *)
Lemma insert_file_tree (fs : gmap Path node) (p : Path) (n : node) :
  is_tree fs -> p <> [] -> is_dir fs p = false ->
  is_dir fs (parent p) = true -> is_tree (<[p := n]> fs).
Proof.
  intros Htree Hp Hnodir Hparent q m Hq.
  destruct (decide (q = p)) as [-> | Hne].
  - rewrite is_dir_parent_insert by exact Hp. exact Hparent.
  - rewrite lookup_insert_ne in Hq by congruence.
    pose proof (Htree q m Hq) as Hdir.
    destruct (decide (parent q = p)) as [Heq | Hne'].
    + rewrite Heq in Hdir. congruence.
    + rewrite is_dir_insert_ne by exact Hne'. exact Hdir.
Qed.

Lemma insert_dir_tree (fs : gmap Path node) (d : Path) :
  is_tree fs -> d <> [] -> is_dir fs (parent d) = true ->
  is_tree (<[d := Dir]> fs).
Proof.
  intros Htree Hd Hparent q n Hq.
  destruct (decide (q = d)) as [-> | Hne].
  - rewrite is_dir_parent_insert by exact Hd. exact Hparent.
  - rewrite lookup_insert_ne in Hq by congruence.
    pose proof (Htree q n Hq) as Hdir.
    destruct (decide (parent q = d)) as [Heq | Hne'].
    + rewrite Heq. rewrite FsFacts.is_dir_nonempty by exact Hd.
      rewrite lookup_insert_eq. reflexivity.
    + rewrite is_dir_insert_ne by exact Hne'. exact Hdir.
Qed.

(** [mkdir] keeps the file system a tree, also when it raises half-way. *)
Lemma mkdir_rev_tree (fault_of : FsOp -> option Exc) (rp : list string) :
  forall (blocked : Exc) (fs fs' : gmap Path node) (o : outcome unit),
    is_tree fs -> mkdir_rev fault_of blocked rp fs = (o, fs') -> is_tree fs'.
Proof.
  induction rp as [| c rp IH]; intros blocked fs fs' o Htree Hrun.
  - injection Hrun as _ <-. exact Htree.
  - cbn [mkdir_rev] in Hrun.
    destruct (fs !! rev (c :: rp)) as [[| data | text] |] eqn:Hlook;
      [injection Hrun as _ <-; exact Htree
      | injection Hrun as _ <-; exact Htree
      | injection Hrun as _ <-; exact Htree |].
    unfold bind in Hrun.
    destruct (mkdir_rev fault_of NotADirectoryError rp fs)
      as [[[] | e] fs1] eqn:Hsub.
    + pose proof (IH _ _ _ _ Htree Hsub) as Htree1.
      apply mkdir_rev_returns in Hsub.
      unfold fault in Hrun.
      destruct (fault_of (OpMkdir (rev (c :: rp))));
        [injection Hrun as _ <-; exact Htree1 |].
      cbn in Hrun. injection Hrun as _ <-.
      apply insert_dir_tree; [exact Htree1 | | ].
      * destruct (rev rp); discriminate.
      * rewrite parent_snoc. exact Hsub.
    + injection Hrun as _ <-. exact (IH _ _ _ _ Htree Hsub).
Qed.

(** All that [mkdir] changes: directories appear where nothing was, on
    the way to the directory asked for. *)
Lemma mkdir_rev_frame (fault_of : FsOp -> option Exc) (rp : list string) :
  forall (blocked : Exc) (fs fs' : gmap Path node) (o : outcome unit),
    mkdir_rev fault_of blocked rp fs = (o, fs') ->
    forall q, fs' !! q = fs !! q \/
              (fs !! q = None /\ fs' !! q = Some Dir /\ q `prefix_of` rev rp).
Proof.
  induction rp as [| c rp IH]; intros blocked fs fs' o Hrun q.
  - injection Hrun as _ <-. left. reflexivity.
  - cbn [mkdir_rev] in Hrun.
    destruct (fs !! rev (c :: rp)) as [[| data | text] |] eqn:Hlook;
      [injection Hrun as _ <-; left; reflexivity
      | injection Hrun as _ <-; left; reflexivity
      | injection Hrun as _ <-; left; reflexivity |].
    unfold bind in Hrun.
    assert (Hup : forall fs1 : gmap Path node,
               (fs1 !! q = fs !! q \/
                (fs !! q = None /\ fs1 !! q = Some Dir /\ q `prefix_of` rev rp)) ->
               fs1 !! q = fs !! q \/
               (fs !! q = None /\ fs1 !! q = Some Dir /\
                q `prefix_of` rev (c :: rp))).
    { intros fs1 [Heq | (Hnone & Hdir & Hpre)]; [left; exact Heq |].
      right. repeat split; try assumption. cbn. apply prefix_app_r, Hpre. }
    destruct (mkdir_rev fault_of NotADirectoryError rp fs)
      as [[[] | e] fs1] eqn:Hsub.
    + unfold fault in Hrun.
      destruct (fault_of (OpMkdir (rev (c :: rp))));
        [injection Hrun as _ <-; apply Hup, (IH _ _ _ _ Hsub) |].
      cbn in Hrun. injection Hrun as _ <-.
      destruct (decide (q = rev rp ++ [c])) as [-> | Hne].
      * right. split; [exact Hlook |]. split; [apply lookup_insert_eq |].
        reflexivity.
      * rewrite lookup_insert_ne by congruence. apply Hup, (IH _ _ _ _ Hsub).
    + injection Hrun as _ <-. apply Hup, (IH _ _ _ _ Hsub).
Qed.

(** When [mkdir] raises, the file system holds what it held, but for the
    directories created before. *)
Lemma mkdir_parents_frame (fault_of : FsOp -> option Exc) (d : Path)
    (fs fs' : gmap Path node) (o : outcome unit) :
  mkdir_parents fault_of d fs = (o, fs') ->
  forall q, fs' !! q = fs !! q \/
            (fs !! q = None /\ fs' !! q = Some Dir /\ q `prefix_of` d).
Proof.
  intros Hrun q. pose proof (mkdir_rev_frame _ _ _ _ _ _ Hrun q) as H.
  rewrite rev_involutive in H. exact H.
Qed.

(** A failed [open] changes nothing; a failed write leaves a part of the
    text in the file. *)
Lemma open_w_raises (fault_of : FsOp -> option Exc) (p : Path)
    (fs fs' : gmap Path node) (e : Exc) :
  open_w fault_of p fs = (Raise e, fs') -> fs' = fs.
Proof.
  unfold open_w, bind, fault, raise, ret, modify. intros Hrun.
  destruct (is_dir fs p); [congruence |].
  destruct (is_dir fs (parent p)); cbn in Hrun;
    [| destruct (fs !! parent p); congruence].
  destruct (fault_of (OpOpen p)); cbn in Hrun; congruence.
Qed.

Lemma write_raises (fault_of : FsOp -> option Exc) (p : Path) (data : string)
    (fs fs' : gmap Path node) (e : Exc) :
  write fault_of p data fs = (Raise e, fs') -> fs' = <[p := Partial data]> fs.
Proof.
  unfold write. intros Hrun.
  destruct (has_surrogate data); [congruence |].
  destruct (fault_of (OpWrite p)); congruence.
Qed.

End FsMore.

(** ** scrape_statistics_canada_daily: further properties *)

Section SampleRunnerMore.

Variable env : Env.

(** Reduces a statement about a run to the paths of [sample_run_paths],
    with the record [r] and the calls of the inner scrape. *)
Ltac by_run_paths out w r calls Hinner Hrun :=
  destruct (sample_run_paths env out) as (r & calls & Hinner & Hrun);
  try rewrite (Hrun w); try rewrite (Hinner w); cbn [fst snd]; cbn zeta.

(** Case analysis on whether the standard output accepts the next
    line. *)
Ltac next_line :=
  match goal with
  | |- context [env_fs_fault env (OpPrint ?l)] =>
      let H := fresh "Hline" in
      destruct (env_fs_fault env (OpPrint l)) eqn:H
  end.

(** X4. Without an output path the call leaves the file system as it
    was, whether the scrape succeeded or not and however the call ends.
    It returns the record of the scrape when the standard output accepts
    the lines of the run, and no other record; when it raises, the
    exception is that of printing one of these lines. *)
Theorem no_output_path_no_file_effect (w : World) :
  exists r o w',
    scrape_statistics_canada_daily env None w = (o, w') /\
    fst (inner_scrape env w) = Ok r /\
    w_fs w' = w_fs w /\
    (accepted (env_fs_fault env) (progress_lines r) -> o = Ok r) /\
    (forall r', o = Ok r' -> r' = r) /\
    (forall e, o = Raise e ->
               exists l, In l (progress_lines r) /\
                         env_fs_fault env (OpPrint l) = Some e).
Proof.
  by_run_paths (@None Path) w r calls Hinner Hrun.
  exists r. unfold accepted, progress_lines.
  destruct (success r); repeat next_line;
    eexists _, _; (split; [reflexivity |]); (split; [reflexivity |]);
    (split; [reflexivity |]); (split; [| split]);
    try (intros Hacc; try reflexivity;
         match goal with
         | H : env_fs_fault env (OpPrint ?l) = Some _ |- _ =>
             rewrite Hacc in H by (cbn; tauto); discriminate H
         end);
    try (intros r' Hr; congruence);
    try (intros e' He; try discriminate He; injection He as <-;
         match goal with
         | H : env_fs_fault env (OpPrint ?l) = Some _ |- _ =>
             exists l; split; [cbn; tauto | exact H]
         end).
Qed.

(** X5. There is at most one scrape per call: the calls into Playwright
    are those of the one inner [scrape_page], or none when the first line
    could not be printed.  When the call returns, it returns the record
    of that scrape as it is, [html] included.  When it raises, either
    printing a line raised that exception, or the scrape had succeeded
    and an output path was given. *)
Theorem sample_run_outcome (output_file : option Path) (w : World) :
  exists r,
    fst (inner_scrape env w) = Ok r /\
    (w_trace (snd (scrape_statistics_canada_daily env output_file w)) =
       w_trace (snd (inner_scrape env w)) \/
     (w_trace (snd (scrape_statistics_canada_daily env output_file w)) =
        w_trace w /\
      env_fs_fault env (OpPrint (LineScraping statcan_url)) <> None)) /\
    match fst (scrape_statistics_canada_daily env output_file w) with
    | Ok r' => r' = r
    | Raise e =>
        (exists l, env_fs_fault env (OpPrint l) = Some e) \/
        (success r = true /\ exists p, output_file = Some p)
    end.
Proof.
  by_run_paths output_file w r calls Hinner Hrun.
  exists r. split; [reflexivity |].
  destruct (env_fs_fault env (OpPrint (LineScraping statcan_url))) eqn:H0.
  { split; [right; split; [reflexivity | discriminate] |].
    left. eexists. exact H0. }
  destruct (success r) eqn:Hs; [destruct output_file as [p |] |];
    repeat next_line;
    try (split; [left; reflexivity | try reflexivity; left; eauto]; fail).
  all: destruct (Fs.mkdir_parents _ _ _) as [[[] | ?] ?];
    [| split; [left; reflexivity | right; eauto]].
  all: destruct (Fs.open_w _ _ _) as [[[] | ?] ?];
    [| split; [left; reflexivity | right; eauto]].
  all: destruct (Fs.write _ _ _ _) as [[[] | ?] ?];
    [| split; [left; reflexivity | right; eauto]].
  all: split; [left; reflexivity | try reflexivity; left; eauto].
Qed.

(** Closes a path of the run on which the lines printed are given and
    the line that tells the path is not among them. *)
Ltac close_prints :=
  split; [reflexivity |]; split; [reflexivity |];
  split; [eexists; cbn; reflexivity |];
  split; [intros ? Hl; cbn in Hl; intuition (subst; assumption) |];
  split; [intros Hr; cbn in Hr; first [ discriminate Hr | reflexivity ] |];
  intros ? Hq; cbn in Hq; intuition discriminate.

(** X6. What is printed is a beginning of: the line that announces the
    scrape; then, after a failed scrape, the error of the record; after a
    successful one, the title, the number of characters of the text and,
    if a path was given, the line that tells the path.  The standard
    output accepted each line printed, all the lines are printed when the
    call returns, and the line that tells the path is never printed
    unless the call returns and the path holds the file. *)
Theorem sample_run_prints (output_file : option Path) (w : World) :
  exists r lines,
    fst (inner_scrape env w) = Ok r /\
    let run := scrape_statistics_canada_daily env output_file w in
    let all_lines :=
      progress_lines r ++
      match output_file with
      | Some p => if success r then [LineSaved p] else []
      | None => []
      end in
    w_stdout (snd run) = w_stdout w ++ lines /\
    lines `prefix_of` all_lines /\
    accepted (env_fs_fault env) lines /\
    (fst run = Ok r -> lines = all_lines) /\
    forall p, In (LineSaved p) lines ->
      output_file = Some p /\ fst run = Ok r /\
      w_fs (snd run) !! p =
      Some (File (Json.dumps_indent2 (save_data_of r))).
Proof.
  by_run_paths output_file w r calls Hinner Hrun.
  exists r. unfold accepted, progress_lines.
  destruct (env_fs_fault env (OpPrint (LineScraping statcan_url))) eqn:H0.
  { exists []. split; [reflexivity |].
    split; [rewrite app_nil_r; reflexivity |].
    split; [apply prefix_nil |].
    split; [intros l [] |]. split; [intros Hr; discriminate Hr |].
    intros q []. }
  destruct (success r) eqn:Hs.
  2: { destruct (env_fs_fault env (OpPrint (LineError (error r)))) eqn:H1;
         destruct output_file as [p |]; eexists; close_prints. }
  destruct output_file as [p |].
  2: { repeat next_line; eexists; close_prints. }
  destruct (env_fs_fault env (OpPrint (LineScraped (title r)))) eqn:H1;
    [eexists; close_prints |].
  destruct (env_fs_fault env
              (OpPrint (LineContentLength (py_len (content r))))) eqn:H2;
    [eexists; close_prints |].
  destruct (Fs.mkdir_parents _ _ _) as [[[] | e] fs1] eqn:Hmk;
    [| eexists; close_prints].
  destruct (Fs.open_w _ _ _) as [[[] | e] fs2] eqn:Hopen;
    [| eexists; close_prints].
  destruct (Fs.write _ _ _ _) as [[[] | e] fs3] eqn:Hwrite;
    [| eexists; close_prints].
  destruct (env_fs_fault env (OpPrint (LineSaved p))) eqn:H3;
    [eexists; close_prints |].
  eexists. split; [reflexivity |]. split; [reflexivity |].
  split; [reflexivity |].
  split; [intros l Hl; cbn in Hl; intuition (subst; assumption) |].
  split; [reflexivity |].
  intros q Hq. cbn in Hq.
  destruct Hq as [Hq | [Hq | [Hq | [Hq | []]]]]; try discriminate Hq.
  injection Hq as <-. split; [reflexivity |]. split; [reflexivity |].
  apply FsMore.write_returns in Hwrite as (_ & _ & ->).
  cbn. apply lookup_insert_eq.
Qed.

(** X7. Running again: after a run that saved the file, a second run
    against a site that answers the same succeeds too and leaves the file
    system exactly as the first run left it. *)
Theorem second_run_changes_nothing (p : Path) (w w' : World)
    (r : ScrapeResult) :
  scrape_statistics_canada_daily env (Some p) w = (Ok r, w') ->
  success r = true ->
  exists w'',
    scrape_statistics_canada_daily env (Some p) w' = (Ok r, w'') /\
    w_fs w'' = w_fs w'.
Proof.
  destruct (sample_run_paths env (Some p)) as (r0 & calls & Hinner & Hrun).
  intros Hfirst Hs. rewrite (Hrun w'). rewrite (Hrun w) in Hfirst.
  cbn zeta in Hfirst |- *.
  destruct (env_fs_fault env (OpPrint (LineScraping statcan_url)));
    [discriminate |].
  assert (Hr : r0 = r).
  { destruct (success r0);
      repeat match type of Hfirst with
             | context [match ?m with (_, _) => _ end] =>
                 destruct m as [[[] | ?] ?]
             | context [env_fs_fault env (OpPrint ?l)] =>
                 destruct (env_fs_fault env (OpPrint l))
             end; congruence. }
  subst r0. rewrite Hs in Hfirst |- *.
  destruct (env_fs_fault env (OpPrint (LineScraped (title r))));
    [discriminate |].
  destruct (env_fs_fault env
              (OpPrint (LineContentLength (py_len (content r)))));
    [discriminate |].
  destruct (Fs.mkdir_parents _ _ (w_fs w)) as [[[] | e] fs1] eqn:Hmk;
    [| discriminate].
  destruct (Fs.open_w _ _ fs1) as [[[] | e] fs2] eqn:Hopen; [| discriminate].
  destruct (Fs.write _ _ _ fs2) as [[[] | e] fs3] eqn:Hwrite; [| discriminate].
  destruct (env_fs_fault env (OpPrint (LineSaved p))); [discriminate |].
  injection Hfirst as <-. unfold after_run. cbn [w_fs].
  apply FsMore.mkdir_parents_returns in Hmk.
  apply FsMore.open_w_returns in Hopen as (Hp & Hnodir & _ & Hfo & ->).
  apply FsMore.write_returns in Hwrite as (Hsur & Hfw & ->).
  set (data := Json.dumps_indent2 (save_data_of r)) in *.
  set (fs3 := <[p := File data]> (<[p := File ""]> fs1)).
  assert (Hdir3 : Fs.is_dir fs3 (Fs.parent p) = true).
  { unfold fs3. rewrite !FsMore.is_dir_parent_insert by exact Hp. exact Hmk. }
  assert (Hfile3 : Fs.is_dir fs3 p = false).
  { rewrite FsFacts.is_dir_nonempty by exact Hp. unfold fs3.
    rewrite lookup_insert_eq. reflexivity. }
  rewrite (FsMore.mkdir_existing _ _ _ Hdir3).
  unfold Fs.open_w. rewrite Hfile3, Hdir3.
  unfold Fs.write, bind, Fs.fault. rewrite Hfo, Hsur, Hfw. cbn.
  eexists. split; [reflexivity |]. cbn.
  unfold fs3. rewrite !insert_insert_eq. reflexivity.
Qed.

(** X8. Something that is not a directory in the place of the parent
    directory: after a successful scrape the call raises and the file
    system is as it was; nothing is written. *)
Theorem parent_is_a_file (p : Path) (w : World) (r : ScrapeResult)
    (n : node) :
  fst (inner_scrape env w) = Ok r ->
  success r = true ->
  plain p ->
  Fs.parent p <> [] ->
  w_fs w !! Fs.parent p = Some n ->
  n <> Dir ->
  exists e w',
    scrape_statistics_canada_daily env (Some p) w = (Raise e, w') /\
    w_fs w' = w_fs w.
Proof.
  destruct (sample_run_paths env (Some p)) as (r0 & calls & Hinner & Hrun).
  rewrite (Hinner w), (Hrun w). cbn [fst]. cbn zeta.
  intros [= ->] Hs _ Hparent Hfile Hn.
  rewrite Hs, (FsMore.mkdir_on_file _ _ _ n Hparent Hfile Hn).
  repeat next_line; eexists _, _; split; reflexivity.
Qed.

(** X9. A directory at the output path (the working directory itself
    included): after a successful scrape the call raises and the file
    system is as it was. *)
Theorem output_path_is_a_directory (p : Path) (w : World) (r : ScrapeResult) :
  fst (inner_scrape env w) = Ok r ->
  success r = true ->
  plain p ->
  Fs.is_dir (w_fs w) (Fs.parent p) = true ->
  Fs.is_dir (w_fs w) p = true ->
  exists e w',
    scrape_statistics_canada_daily env (Some p) w = (Raise e, w') /\
    w_fs w' = w_fs w.
Proof.
  destruct (sample_run_paths env (Some p)) as (r0 & calls & Hinner & Hrun).
  rewrite (Hinner w), (Hrun w). cbn [fst]. cbn zeta.
  intros [= ->] Hs _ Hparent Hdir.
  rewrite Hs, (FsMore.mkdir_existing _ _ _ Hparent).
  unfold Fs.open_w. rewrite Hdir.
  repeat next_line; eexists _, _; split; reflexivity.
Qed.

(** X10. The file is emptied before it is written: when the scrape
    succeeded, its lines were printed, the path holds a file, [open]
    succeeds and the write is refused, the call raises the exception of
    the write and the previous content of the file is lost: the file
    holds a part of the new text; the rest of the file system is as it
    was. *)
Theorem failed_write_loses_previous_file (p : Path) (w : World)
    (r : ScrapeResult) (old : string) (e : Exc) :
  fst (inner_scrape env w) = Ok r ->
  success r = true ->
  accepted (env_fs_fault env) (progress_lines r) ->
  plain p ->
  p <> [] ->
  w_fs w !! p = Some (File old) ->
  Fs.is_dir (w_fs w) (Fs.parent p) = true ->
  env_fs_fault env (OpOpen p) = None ->
  Fs.has_surrogate (Json.dumps_indent2 (save_data_of r)) = false ->
  env_fs_fault env (OpWrite p) = Some e ->
  exists w',
    scrape_statistics_canada_daily env (Some p) w = (Raise e, w') /\
    w_fs w' !! p = Some (Partial (Json.dumps_indent2 (save_data_of r))) /\
    forall q, q <> p -> w_fs w' !! q = w_fs w !! q.
Proof.
  destruct (sample_run_paths env (Some p)) as (r0 & calls & Hinner & Hrun).
  rewrite (Hinner w), (Hrun w). cbn [fst]. cbn zeta.
  intros [= ->] Hs Hacc _ Hp Hold Hparent Hopen Hsur Hwrite.
  unfold accepted, progress_lines in Hacc. rewrite Hs in Hacc |- *.
  rewrite !Hacc by (cbn; tauto).
  rewrite (FsMore.mkdir_existing _ _ _ Hparent).
  assert (Hfile : Fs.is_dir (w_fs w) p = false).
  { rewrite FsFacts.is_dir_nonempty by exact Hp. rewrite Hold. reflexivity. }
  unfold Fs.open_w. rewrite Hfile, Hparent.
  unfold Fs.write, bind, Fs.fault. rewrite Hopen, Hsur, Hwrite. cbn.
  eexists. split; [reflexivity |]. cbn. split.
  - apply lookup_insert_eq.
  - intros q Hq. rewrite !lookup_insert_ne by congruence. reflexivity.
Qed.

(** X11. The entry point: when the scrape succeeds, neither the standard
    output nor the operating system refuses anything, no field to be
    saved holds a surrogate, [output] is a directory if it exists and
    [output/statcan_daily.json] is not a directory, running the module
    returns the record, [output] is a directory afterwards and
    [output/statcan_daily.json] holds the three fields, whether the
    directory and the file existed or not. *)
Theorem main_saves_the_daily (w : World) (r : ScrapeResult) :
  fst (inner_scrape env w) = Ok r ->
  success r = true ->
  (forall op, env_fs_fault env op = None) ->
  Fs.has_surrogate (Json.dumps_indent2 (save_data_of r)) = false ->
  (forall n, w_fs w !! ["output"] = Some n -> n = Dir) ->
  w_fs w !! ["output"; "statcan_daily.json"] <> Some Dir ->
  exists w',
    main env w = (Ok r, w') /\
    w_fs w' !! ["output"] = Some Dir /\
    w_fs w' !! ["output"; "statcan_daily.json"] =
      Some (File (Json.dumps_indent2 (save_data_of r))) /\
    JsonRead.loads (Json.dumps_indent2 (save_data_of r)) =
      Some [("url", url r); ("title", title r); ("content", content r)].
Proof.
  unfold main.
  destruct (sample_run_paths env (Some ["output"; "statcan_daily.json"]))
    as (r0 & calls & Hinner & Hrun).
  rewrite (Hinner w), (Hrun w). cbn [fst]. cbn zeta.
  intros [= ->] Hs Hfault Hsur Hnofile Hnodir. rewrite Hs, !Hfault.
  assert (Hmk : exists fs1,
             Fs.mkdir_parents (env_fs_fault env)
               (Fs.parent ["output"; "statcan_daily.json"]) (w_fs w)
             = (Ok tt, fs1) /\
             fs1 !! ["output"] = Some Dir /\
             fs1 !! ["output"; "statcan_daily.json"] =
             w_fs w !! ["output"; "statcan_daily.json"]).
  { unfold Fs.mkdir_parents. cbn [Fs.parent removelast rev app Fs.mkdir_rev].
    destruct (w_fs w !! ["output"]) as [n |] eqn:Hout.
    - rewrite (Hnofile n eq_refl). exists (w_fs w). repeat split.
      rewrite Hout, (Hnofile n eq_refl). reflexivity.
    - unfold bind, Fs.fault. cbn [ret]. rewrite Hfault. cbn.
      eexists. split; [reflexivity |]. split.
      + apply lookup_insert_eq.
      + apply lookup_insert_ne. discriminate. }
  destruct Hmk as (fs1 & -> & Hout & Hsame).
  unfold Fs.open_w. cbn [Fs.is_dir Fs.parent removelast].
  rewrite Hsame, Hout.
  destruct (w_fs w !! ["output"; "statcan_daily.json"])
    as [[| old | old] |] eqn:Hfile;
    [congruence | | |];
    unfold Fs.write, bind, Fs.fault; rewrite Hsur, !Hfault; cbn;
    (eexists; split; [reflexivity |]); cbn;
    (split; [rewrite !lookup_insert_ne by discriminate; exact Hout |]);
    (split; [apply lookup_insert_eq
            | exact (JsonFacts.loads_dumps (save_data_of r))]).
Qed.

(** X13. The call keeps the file system a tree: if everything lay in a
    directory before, everything does afterwards, whether the call
    returns or raises half-way through creating directories or writing
    the file. *)
Theorem sample_run_keeps_tree (output_file : option Path) (w : World) :
  is_tree (w_fs w) ->
  is_tree (w_fs (snd (scrape_statistics_canada_daily env output_file w))).
Proof.
  intros Htree.
  destruct (sample_run_paths env output_file) as (r & calls & Hinner & Hrun).
  rewrite (Hrun w). cbn zeta.
  destruct (env_fs_fault env (OpPrint (LineScraping statcan_url)));
    [exact Htree |].
  destruct (success r).
  2: { destruct (env_fs_fault env (OpPrint (LineError (error r))));
         exact Htree. }
  destruct (env_fs_fault env (OpPrint (LineScraped (title r))));
    [exact Htree |].
  destruct (env_fs_fault env
              (OpPrint (LineContentLength (py_len (content r)))));
    [exact Htree |].
  destruct output_file as [p |]; [| exact Htree].
  destruct (Fs.mkdir_parents _ _ _) as [o1 fs1] eqn:Hmk.
  pose proof (FsMore.mkdir_rev_tree _ _ _ _ _ _ Htree Hmk) as Htree1.
  destruct o1 as [[] | e]; [| exact Htree1].
  apply FsMore.mkdir_parents_returns in Hmk.
  destruct (Fs.open_w _ _ _) as [[[] | e] fs2] eqn:Hopen.
  2: { apply FsMore.open_w_raises in Hopen as ->. exact Htree1. }
  apply FsMore.open_w_returns in Hopen as (Hp & Hnodir & Hparent & _ & ->).
  pose proof (FsMore.insert_file_tree _ _ (File "") Htree1 Hp Hnodir Hparent)
    as Htree2.
  assert (Htree3 : forall n, is_tree (<[p := n]> (<[p := File ""]> fs1))).
  { intros n. apply FsMore.insert_file_tree; [exact Htree2 | exact Hp | |].
    - rewrite FsFacts.is_dir_nonempty by exact Hp.
      rewrite lookup_insert_eq. reflexivity.
    - rewrite FsMore.is_dir_parent_insert by exact Hp. exact Hparent. }
  destruct (Fs.write _ _ _ _) as [[[] | e] fs3] eqn:Hwrite.
  2: { apply FsMore.write_raises in Hwrite as ->. apply Htree3. }
  apply FsMore.write_returns in Hwrite as (_ & _ & ->).
  destruct (env_fs_fault env (OpPrint (LineSaved p))); apply Htree3.
Qed.

(** X14. Whatever the outcome, the call neither removes nor alters
    anything beside the output path: for paths whose components are
    names, any other path holds what it held, unless it held nothing,
    leads to the output path and is a directory now. *)
Theorem sample_run_frame (p q : Path) (w : World) :
  plain p ->
  plain q ->
  q <> p ->
  let fs' := w_fs (snd (scrape_statistics_canada_daily env (Some p) w)) in
  fs' !! q = w_fs w !! q \/
  (w_fs w !! q = None /\ fs' !! q = Some Dir /\ q `prefix_of` Fs.parent p).
Proof.
  intros _ _ Hq. cbn zeta.
  destruct (sample_run_paths env (Some p)) as (r & calls & Hinner & Hrun).
  rewrite (Hrun w). cbn zeta.
  destruct (env_fs_fault env (OpPrint (LineScraping statcan_url)));
    [left; reflexivity |].
  destruct (success r).
  2: { destruct (env_fs_fault env (OpPrint (LineError (error r))));
         left; reflexivity. }
  destruct (env_fs_fault env (OpPrint (LineScraped (title r))));
    [left; reflexivity |].
  destruct (env_fs_fault env
              (OpPrint (LineContentLength (py_len (content r)))));
    [left; reflexivity |].
  destruct (Fs.mkdir_parents _ _ _) as [o1 fs1] eqn:Hmk.
  pose proof (FsMore.mkdir_parents_frame _ _ _ _ _ Hmk q) as Hframe.
  destruct o1 as [[] | e]; [| exact Hframe].
  destruct (Fs.open_w _ _ _) as [[[] | e] fs2] eqn:Hopen.
  2: { apply FsMore.open_w_raises in Hopen as ->. exact Hframe. }
  apply FsMore.open_w_returns in Hopen as (_ & _ & _ & _ & ->).
  destruct (Fs.write _ _ _ _) as [[[] | e] fs3] eqn:Hwrite.
  2: { apply FsMore.write_raises in Hwrite as ->. cbn.
       rewrite !lookup_insert_ne by congruence. exact Hframe. }
  apply FsMore.write_returns in Hwrite as (_ & _ & ->).
  destruct (env_fs_fault env (OpPrint (LineSaved p)));
    cbn; rewrite !lookup_insert_ne by congruence; exact Hframe.
Qed.

End SampleRunnerMore.

(** X12. The saved text tells the three fields apart: two records whose
    files are the same text have the same [url], [title] and
    [content]. *)
Theorem saved_text_determines_fields (r1 r2 : ScrapeResult) :
  Json.dumps_indent2 (save_data_of r1) = Json.dumps_indent2 (save_data_of r2) ->
  url r1 = url r2 /\ title r1 = title r2 /\ content r1 = content r2.
Proof.
  intros Heq. apply (f_equal JsonRead.loads) in Heq.
  rewrite !JsonFacts.loads_dumps in Heq.
  unfold save_data_of in Heq. injection Heq as -> -> ->.
  repeat split.
Qed.

(** ** The further properties at concrete inputs *)

(** X7, at a concrete input: the sample run, twice. *)
Lemma second_run_changes_nothing_witness :
  let env := mkEnv pw_fine no_fault in
  let r := mkResult true statcan_url "The Daily" "Body text" "<html></html>" "" in
  let w' := snd (scrape_statistics_canada_daily env (Some sample_path) empty_world) in
  exists w'',
    scrape_statistics_canada_daily env (Some sample_path) w' = (Ok r, w'') /\
    w_fs w'' = w_fs w'.
Proof.
  intros env r w'.
  apply (second_run_changes_nothing env sample_path empty_world w' r);
    reflexivity.
Defined.

(** X8, at a concrete input: [output] is a file. *)
Lemma parent_is_a_file_witness :
  exists e w',
    scrape_statistics_canada_daily (mkEnv pw_fine no_fault) (Some sample_path)
      blocked_world = (Raise e, w') /\
    w_fs w' = w_fs blocked_world.
Proof.
  apply (parent_is_a_file (mkEnv pw_fine no_fault) sample_path blocked_world
           (mkResult true statcan_url "The Daily" "Body text" "<html></html>" "")
           (File "not a directory"));
    [reflexivity | reflexivity
    | unfold plain, sample_path; cbn; intros [H | [H | []]]; discriminate H
    | discriminate | reflexivity | discriminate].
Defined.

(** X9, at a concrete input: [output/statcan_daily.json] is a
    directory. *)
Lemma output_path_is_a_directory_witness :
  exists e w',
    scrape_statistics_canada_daily (mkEnv pw_fine no_fault) (Some sample_path)
      directory_world = (Raise e, w') /\
    w_fs w' = w_fs directory_world.
Proof.
  apply (output_path_is_a_directory (mkEnv pw_fine no_fault) sample_path
           directory_world
           (mkResult true statcan_url "The Daily" "Body text" "<html></html>" ""));
    [reflexivity | reflexivity
    | unfold plain, sample_path; cbn; intros [H | [H | []]]; discriminate H
    | reflexivity | reflexivity].
Defined.

(** X10, at a concrete input: the file exists and the disk is full. *)
Lemma failed_write_loses_previous_file_witness :
  let r := mkResult true statcan_url "The Daily" "Body text" "<html></html>" "" in
  exists w',
    scrape_statistics_canada_daily (mkEnv pw_fine write_fault) (Some sample_path)
      stale_world =
    (Raise (mkExc OtherException "No space left on device"), w') /\
    w_fs w' !! sample_path =
      Some (Partial (Json.dumps_indent2 (save_data_of r))) /\
    forall q, q <> sample_path -> w_fs w' !! q = w_fs stale_world !! q.
Proof.
  intros r.
  apply (failed_write_loses_previous_file (mkEnv pw_fine write_fault)
           sample_path stale_world r "stale");
    [reflexivity | reflexivity | intros l _; reflexivity
    | unfold plain, sample_path; cbn; intros [H | [H | []]]; discriminate H
    | discriminate | reflexivity | reflexivity
    | reflexivity | reflexivity | reflexivity].
Defined.

(** X11, at a concrete input: the first run, in an empty directory. *)
Lemma main_saves_the_daily_witness :
  let r := mkResult true statcan_url "The Daily" "Body text" "<html></html>" "" in
  exists w',
    main (mkEnv pw_fine no_fault) empty_world = (Ok r, w') /\
    w_fs w' !! ["output"] = Some Dir /\
    w_fs w' !! ["output"; "statcan_daily.json"] =
      Some (File (Json.dumps_indent2 (save_data_of r))) /\
    JsonRead.loads (Json.dumps_indent2 (save_data_of r)) =
      Some [("url", url r); ("title", title r); ("content", content r)].
Proof.
  intros r.
  apply (main_saves_the_daily (mkEnv pw_fine no_fault) empty_world r).
  - reflexivity.
  - reflexivity.
  - intros op. reflexivity.
  - reflexivity.
  - intros n. cbn. rewrite lookup_empty. discriminate.
  - cbn. rewrite lookup_empty. discriminate.
Defined.

(** X12, at a concrete input: two records that differ in [success],
    [html] and [error] only. *)
Lemma saved_text_determines_fields_witness :
  let r1 := mkResult true statcan_url "The Daily" "Body text" "<html></html>" "" in
  let r2 := mkResult false statcan_url "The Daily" "Body text" "" "Timeout error: " in
  url r1 = url r2 /\ title r1 = title r2 /\ content r1 = content r2.
Proof.
  intros r1 r2. apply (saved_text_determines_fields r1 r2). reflexivity.
Defined.

(** X13, at a concrete input: the first run, in an empty directory. *)
Lemma sample_run_keeps_tree_witness :
  is_tree (w_fs (snd (scrape_statistics_canada_daily (mkEnv pw_fine no_fault)
                        (Some sample_path) empty_world))).
Proof.
  apply (sample_run_keeps_tree (mkEnv pw_fine no_fault) (Some sample_path)
           empty_world).
  intros q n Hq. cbn in Hq. rewrite lookup_empty in Hq. discriminate Hq.
Defined.

(** X14, at a concrete input: the directory [output], created on the way
    to the file. *)
Lemma sample_run_frame_witness :
  let fs' := w_fs (snd (scrape_statistics_canada_daily (mkEnv pw_fine no_fault)
                          (Some sample_path) empty_world)) in
  fs' !! ["output"] = w_fs empty_world !! ["output"] \/
  (w_fs empty_world !! ["output"] = None /\ fs' !! ["output"] = Some Dir /\
   ["output"] `prefix_of` Fs.parent sample_path).
Proof.
  apply (sample_run_frame (mkEnv pw_fine no_fault) sample_path ["output"]
           empty_world).
  - unfold plain, sample_path. cbn. intros [H | [H | []]]; discriminate H.
  - unfold plain. cbn. intros [H | []]; discriminate H.
  - discriminate.
Defined.
